(** * DotaStats bot: identity resolver, hero catalog, match formatter,
      benchmark analyzer and score store

    A shallow embedding of the bot's core (k_python_2dda.py) and of the
    persistence calls (_python_2.py), with the properties the specification
    states about them and further properties read off the code.

    Conventions of the embedding.
    - A Python [str] is a [string]; every [ascii] stands for one code point
      of the range U+0000..U+00FF.  Characters beyond that range are not
      modelled.
    - A Python [int] is a [Z]; a Python [float] is a binary64 [float].
      The conversion of an int to a float is correctly rounded and raises
      [OverflowError] beyond the floats ([float_of_int]); the true division
      of the match formatter is total, with an infinity there ([truediv]).
    - A computation that may raise is a value of [outcome]; [try/except
      Exception] is [try_except].
    - A decoded JSON document is a [json] value; an object keeps its members
      in document order and is looked up by first match (a decoded object
      has no two members of the same name). *)

From Stdlib Require Import ZArith Ascii String List Floats Uint63 Lia Bool.
From stdpp Require Import base option list gmap strings pretty.

Local Open Scope Z_scope.

(** ** Python values and builtins *)

Module Py.

(** Exception classes that the modelled code can meet.  All of them derive
    from [Exception]. *)
Inductive exn : Set :=
  | ValueError | TypeError | AttributeError | KeyError | IndexError
  | OverflowError | OSError | ClientError | TimeoutError | DecodeError
  | DatabaseError | GenericException.

Inductive outcome (A : Type) : Type :=
  | Returned (a : A)
  | Raised (e : exn).
Arguments Returned {A} a.
Arguments Raised {A} e.

Definition bind {A B} (m : outcome A) (k : A -> outcome B) : outcome B :=
  match m with
  | Returned a => k a
  | Raised e => Raised e
  end.

(** [try: body / except Exception: handler] *)
Definition try_except {A} (body : outcome A) (handler : exn -> outcome A)
  : outcome A :=
  match body with
  | Returned a => Returned a
  | Raised e => handler e
  end.

Definition raises {A} (m : outcome A) : bool :=
  match m with Returned _ => false | Raised _ => true end.

#[local] Set Warnings "-register-all".
Inductive json : Type :=
  | JNull
  | JBool (b : bool)
  | JInt (z : Z)
  | JFloat (f : float)
  | JStr (s : string)
  | JArr (items : list json)
  | JObj (members : list (string * json)).

(** *** Characters and strings *)

Definition ord (c : ascii) : Z := Z.of_N (N_of_ascii c).

(** [str.isspace] on one character: the characters [str.strip()] removes. *)
Definition isspace (c : ascii) : bool :=
  let n := ord c in
  ((9 <=? n) && (n <=? 13)) || ((28 <=? n) && (n <=? 32))
  || (n =? 133) || (n =? 160).

(** The white space [int()] skips around a literal: U+001C..U+001F are
    white space for [str.strip] but not for [int]. *)
Definition int_space (c : ascii) : bool :=
  let n := ord c in
  ((9 <=? n) && (n <=? 13)) || (n =? 32) || (n =? 133) || (n =? 160).

(** The ten decimal digits. *)
Definition is_decimal (c : ascii) : bool :=
  let n := ord c in (48 <=? n) && (n <=? 57).

(** [str.isdigit] on one character: the decimal digits and the superscript
    digits U+00B2, U+00B3, U+00B9. *)
Definition isdigit_char (c : ascii) : bool :=
  let n := ord c in
  is_decimal c || (n =? 178) || (n =? 179) || (n =? 185).

Fixpoint all_chars (p : ascii -> bool) (s : string) : bool :=
  match s with
  | EmptyString => true
  | String c s' => p c && all_chars p s'
  end.

(** [s.isdigit()]: non-empty and every character a digit. *)
Definition isdigit (s : string) : bool :=
  match s with
  | EmptyString => false
  | String _ _ => all_chars isdigit_char s
  end.

Fixpoint lstrip_with (p : ascii -> bool) (s : string) : string :=
  match s with
  | EmptyString => EmptyString
  | String c s' => if p c then lstrip_with p s' else s
  end.

Fixpoint rstrip_with (p : ascii -> bool) (s : string) : string :=
  match s with
  | EmptyString => EmptyString
  | String c s' =>
      match rstrip_with p s' with
      | EmptyString => if p c then EmptyString else String c EmptyString
      | r => String c r
      end
  end.

(** [s.strip()] *)
Definition strip (s : string) : string :=
  rstrip_with isspace (lstrip_with isspace s).

(** [s.rstrip(chars)] for a one-character [chars] *)
Definition rstrip (ch : ascii) (s : string) : string :=
  rstrip_with (Ascii.eqb ch) s.

(** [sub in s] *)
Fixpoint contains (sub s : string) : bool :=
  String.prefix sub s
  || match s with
     | EmptyString => false
     | String _ s' => contains sub s'
     end.

(** [s.split(sep)] for a one-character [sep]; the result is never empty. *)
Fixpoint split (sep : ascii) (s : string) : list string :=
  match s with
  | EmptyString => [EmptyString]
  | String c s' =>
      if Ascii.eqb c sep then EmptyString :: split sep s'
      else match split sep s' with
           | seg :: rest => String c seg :: rest
           | [] => [String c EmptyString]
           end
  end.

(** [s.split(sep)[-1]] *)
Definition last_segment (sep : ascii) (s : string) : string :=
  List.last (split sep s) EmptyString.

(** *** [int()] *)

Definition digit_val (c : ascii) : Z := ord c - 48.

(** The digits of a base-10 literal: decimal digits, with single underscores
    allowed between two digits.  [after_digit] tells whether the previous
    character was a digit. *)
Fixpoint int_digits (acc : Z) (after_digit : bool) (s : string) : option Z :=
  match s with
  | EmptyString => if after_digit then Some acc else None
  | String c s' =>
      if is_decimal c then int_digits (10 * acc + digit_val c) true s'
      else if Ascii.eqb c "_" then
             if after_digit then int_digits acc false s' else None
      else None
  end.

(** [int(s)] for a string: surrounding white space, an optional sign, the
    digits.  (The interpreter's cap of 4300 digits on such a literal is above
    the 4096 characters a chat message can carry.) *)
Definition int_of_str (s : string) : outcome Z :=
  let t := rstrip_with int_space (lstrip_with int_space s) in
  let parsed :=
    match t with
    | String "+" r => int_digits 0 false r
    | String "-" r => Z.opp <$> int_digits 0 false r
    | _ => int_digits 0 false t
    end in
  match parsed with
  | Some z => Returned z
  | None => Raised ValueError
  end.

(** [int(x)] for a float: truncation toward zero. *)
Definition int_of_float (f : float) : outcome Z :=
  match Prim2SF f with
  | S754_zero _ => Returned 0
  | S754_finite sign m e =>
      let mag := if 0 <=? e then Z.pos m * 2 ^ e else Z.pos m / 2 ^ (- e) in
      Returned (if sign then - mag else mag)
  | S754_infinity _ => Raised OverflowError
  | S754_nan => Raised ValueError
  end.

(** [int(x)] for a decoded JSON value. *)
Definition int_of (x : json) : outcome Z :=
  match x with
  | JStr s => int_of_str s
  | JInt z => Returned z
  | JBool b => Returned (if b then 1 else 0)
  | JFloat f => int_of_float f
  | JNull | JArr _ | JObj _ => Raised TypeError
  end.

(** *** Dictionaries, truth values, sequences *)

Fixpoint assoc (k : string) (members : list (string * json)) : option json :=
  match members with
  | [] => None
  | (k', v) :: rest => if String.eqb k k' then Some v else assoc k rest
  end.

(** [x.get(k, dflt)]: only a dict has the method. *)
Definition get (x : json) (k : string) (dflt : json) : outcome json :=
  match x with
  | JObj members => Returned (default dflt (assoc k members))
  | _ => Raised AttributeError
  end.

(** [x[k]] for a string key. *)
Definition getitem (x : json) (k : string) : outcome json :=
  match x with
  | JObj members =>
      match assoc k members with
      | Some v => Returned v
      | None => Raised KeyError
      end
  | _ => Raised TypeError
  end.

(** [bool(x)] *)
Definition truthy (x : json) : bool :=
  match x with
  | JNull => false
  | JBool b => b
  | JInt z => negb (z =? 0)
  | JFloat f => negb (PrimFloat.eqb f 0)
  | JStr s => negb (String.eqb s EmptyString)
  | JArr items => match items with [] => false | _ => true end
  | JObj members => match members with [] => false | _ => true end
  end.

(** [x == 1] *)
Definition eq_one (x : json) : bool :=
  match x with
  | JInt z => z =? 1
  | JBool b => b
  | JFloat f => PrimFloat.eqb f 1
  | _ => false
  end.

(** *** Floats *)

(** Nearest integer to [n / d] for [0 <= n], [0 < d], ties to even. *)
Definition round_half_even (n d : Z) : Z :=
  let q := n / d in
  let r := n mod d in
  if 2 * r <? d then q
  else if d <? 2 * r then q + 1
  else if Z.even q then q else q + 1.

(** The float nearest to [a / b], ties to even, for [b <> 0]: the quotient
    is brought to a 53-bit integer [m] and a binary exponent [e], no lower
    than the exponent of the subnormal numbers.  A quotient beyond the
    largest float comes out as an infinity. *)
Definition float_of_ratio (a b : Z) : float :=
  if b =? 0 then PrimFloat.nan
  else if a =? 0 then (if b <? 0 then PrimFloat.neg_zero else PrimFloat.zero)
  else
    let n := Z.abs a in
    let d := Z.abs b in
    let l := Z.log2 n - Z.log2 d in
    let l := if n * 2 ^ Z.max 0 (- l) <? d * 2 ^ Z.max 0 l then l - 1 else l in
    let e := Z.max (l - 52) (-1074) in
    let m := if 0 <=? e then round_half_even n (d * 2 ^ e)
             else round_half_even (n * 2 ^ (- e)) d in
    let f := Z.ldexp (PrimFloat.of_uint63 (Uint63.of_Z m)) e in
    if xorb (a <? 0) (b <? 0) then PrimFloat.opp f else f.

(** The float nearest to [z], an infinity for magnitudes that round to
    [2^1024] or more. *)
Definition float_of_Z (z : Z) : float := float_of_ratio z 1.

(** [float(z)] as the interpreter converts an int, also for a [.1f] format:
    [OverflowError] when the nearest float would be an infinity. *)
Definition float_of_int (z : Z) : outcome float :=
  let f := float_of_Z z in
  if PrimFloat.is_infinity f then Raised OverflowError else Returned f.

(** [a / b] on two ints: true division, correctly rounded.  The code
    divides only by a number it has tested to be positive.  Where the
    interpreter raises [OverflowError], for a quotient of [2^1024] and more,
    the model has an infinity. *)
Definition truediv (a b : Z) : float := float_of_ratio a b.

(** The magnitude of [f] scaled by [10^digits] and rounded to an integer,
    from the exact binary value of [f]. *)
Definition scaled_magnitude (digits : Z) (m : positive) (e : Z) : Z :=
  let n := Z.pos m * 10 ^ digits in
  if 0 <=? e then n * 2 ^ e else round_half_even n (2 ^ (- e)).

Definition pad_left (width : nat) (s : string) : string :=
  Nat.iter (width - String.length s) (String "0") s.

(** [format(f, '.<digits>f')] with [digits > 0]: correctly rounded decimal
    rendering of the binary value. *)
Definition format_fixed (digits : nat) (f : float) : string :=
  let render sign n :=
    let p := 10 ^ Z.of_nat digits in
    ((if sign : bool then "-" else "") +:+ pretty (n / p) +:+ "."
     +:+ pad_left digits (pretty (n mod p))) in
  match Prim2SF f with
  | S754_zero sign => render sign 0
  | S754_finite sign m e => render sign (scaled_magnitude (Z.of_nat digits) m e)
  | S754_infinity sign => if sign then "-inf" else "inf"
  | S754_nan => "nan"
  end.

End Py.

Import Py.

#[global] Instance outcome_ret : MRet outcome := @Returned.
#[global] Instance outcome_bind : MBind outcome := fun A B k m => bind m k.


(** The result of one HTTP GET: the request raises (connection failure,
    timeout), or a response arrives with a status code and a body that
    [r.json()] either decodes or rejects by raising. *)
Definition http_result : Type := outcome (Z * outcome json).

(** ** Identity resolver *)

Module Resolver.

Definition steam64_to_account_id (steam64 : Z) : Z :=
  steam64 - 76561197960265728.

Definition vanity_url (key vanity : string) : string :=
  "https://api.steampowered.com/ISteamUser/ResolveVanityURL/v1/?key="
  +:+ key +:+ "&vanityurl=" +:+ vanity.

Section WithEnvironment.

(** The configured credential ([os.getenv] gives [None] or a string) and the
    behaviour of the vanity-resolution endpoint on a request URL. *)
Variable STEAM_API_KEY : option string.
Variable http_get : string -> http_result.

(** The statements inside the [try] of [extract_account_id_safe]. *)
Definition extract_account_id_body (steam_url : string)
  : outcome (option Z) :=
  let steam_url := rstrip "/" (strip steam_url) in
  if isdigit steam_url && (Z.of_nat (String.length steam_url) <? 11) then
    n ← int_of_str steam_url;
    mret (Some n)
  else if contains "/profiles/" steam_url then
    steam64 ← int_of_str (last_segment "/" steam_url);
    mret (Some (steam64_to_account_id steam64))
  else if contains "/id/" steam_url then
    let vanity := last_segment "/" steam_url in
    match STEAM_API_KEY with
    | None | Some EmptyString => mret None
    | Some key =>
        r ← http_get (vanity_url key vanity);
        if r.1 =? 200 then
          data ← r.2;
          response ← get data "response" (JObj []);
          success ← get response "success" JNull;
          if eq_one success then
            response ← getitem data "response";
            steamid ← getitem response "steamid";
            steam64 ← int_of steamid;
            mret (Some (steam64_to_account_id steam64))
          else mret None
        else mret None
    end
  else if isdigit steam_url then
    num ← int_of_str steam_url;
    if num >? 76561197960265728 then mret (Some (steam64_to_account_id num))
    else mret (Some num)
  else mret None.

Definition extract_account_id_safe (steam_url : string)
  : outcome (option Z) :=
  try_except (extract_account_id_body steam_url) (fun _ => mret None).

End WithEnvironment.

End Resolver.

(** ** Hero catalog *)

Module Heroes.

(** What [get_heroes_data] can hand to its caller, and what the global
    [HEROES_CACHE] can hold: Python's [None], a dictionary keyed by hero id,
    or a decoded document kept as it was read. *)
Inductive catalog : Type :=
  | CatNone
  | CatDict (d : gmap Z json)
  | CatRaw (j : json).

Definition catalog_truthy (c : catalog) : bool :=
  match c with
  | CatNone => false
  | CatDict d => bool_decide (d ≠ ∅)
  | CatRaw j => truthy j
  end.

(** [{int(k): value(v) for k, v in x.items()}] *)
Definition dict_of_items (value : json -> outcome json) (x : json)
  : outcome (gmap Z json) :=
  match x with
  | JObj members =>
      foldl (fun acc kv =>
               d ← acc;
               k ← int_of_str kv.1;
               v ← value kv.2;
               mret (<[k := v]> d))
            (mret ∅) members
  | _ => Raised AttributeError
  end.

(** What the loader finds outside the process: the result of opening and
    decoding [hero_names.json], and the result of the GET on the heroes
    endpoint. *)
Record sources : Type := {
  local_file : outcome json;
  heroes_api : http_result
}.

(** The value returned, paired with [HEROES_CACHE] afterwards. *)
Definition get_heroes_data (HEROES_CACHE : catalog) (w : sources)
  : catalog * catalog :=
  if catalog_truthy HEROES_CACHE then (HEROES_CACHE, HEROES_CACHE)
  else
    let from_file : option catalog * catalog :=
      match local_file w with
      | Raised _ => (None, HEROES_CACHE)
      | Returned j =>
          match dict_of_items (fun v => mret v) j with
          | Returned d => (Some (CatDict d), CatDict d)
          | Raised _ => (None, CatRaw j)
          end
      end in
    match from_file with
    | (Some result, cache) => (result, cache)
    | (None, cache) =>
        match heroes_api w with
        | Raised _ => (CatDict ∅, cache)
        | Returned r =>
            if r.1 =? 200 then
              match data ← r.2;
                    dict_of_items (fun v => getitem v "localized_name") data
              with
              | Returned d => (CatDict d, CatDict d)
              | Raised _ => (CatDict ∅, cache)
              end
            else (CatNone, cache)
        end
    end.

(** [heroes.get(hero_id)] for an integer [hero_id]; [None] stands for the
    default being used.  A decoded object has string keys only. *)
Definition catalog_get (heroes : catalog) (hero_id : Z)
  : outcome (option json) :=
  match heroes with
  | CatDict d => Returned (d !! hero_id)
  | CatRaw (JObj _) => Returned None
  | CatRaw _ | CatNone => Raised AttributeError
  end.

End Heroes.

(** ** Match formatter *)

Module Formatter.
Import Heroes.

(** One record of the recent-matches list.  A field is [None] when the key
    is missing from the record, which is when [m.get(key, default)] uses its
    default. *)
Record match_record : Type := {
  player_slot : option Z;
  radiant_win : option bool;
  lane_role : option Z;
  hero_id : option Z;
  kills : option Z;
  deaths : option Z;
  assists : option Z;
  duration : option Z
}.

(** The hero shown on a line: the catalog's entry, or the generic label
    built from the id. *)
Inductive hero_label : Type :=
  | HeroName (v : json)
  | HeroFallback (hero_id : Z).

(** The interpolated parts of one match line. *)
Record match_line : Type := {
  line_index : Z;
  line_win : bool;
  line_hero : hero_label;
  line_kda : string;
  line_time : string;
  line_rule : bool
}.

(** The variables the loop updates. *)
Record loop_state : Type := {
  wins : Z;
  roles : list string;
  lines : list match_line
}.

(** The body of the [for] loop, for the [i]-th record [m]. *)
Definition loop_body (heroes : catalog) (i : Z) (m : match_record)
    (st : loop_state) : outcome loop_state :=
  let is_radiant := default 0 (player_slot m) <? 128 in
  let radiant_win := default false (radiant_win m) in
  let win := (is_radiant && radiant_win)
             || (negb is_radiant && negb radiant_win) in
  let wins := if win then wins st + 1 else wins st in
  let lane := default 0 (lane_role m) in
  let roles :=
    if lane =? 1 then roles st ++ ["Safe Lane"]
    else if lane =? 2 then roles st ++ ["Mid Lane"]
    else if lane =? 3 then roles st ++ ["Off Lane"]
    else if (lane =? 4) || (lane =? 5) then roles st ++ ["Support"]
    else roles st in
  let hero_id := default 0 (hero_id m) in
  found ← catalog_get heroes hero_id;
  let hero_name := from_option HeroName (HeroFallback hero_id) found in
  let k := default 0 (kills m) in
  let d := default 0 (deaths m) in
  let a := default 0 (assists m) in
  let kda := pretty k +:+ "/" +:+ pretty d +:+ "/" +:+ pretty a in
  let kda :=
    if d >? 0 then
      kda +:+ " (" +:+ format_fixed 2 (truediv (k + a) d) +:+ ")"
    else kda in
  let duration := default 0 (duration m) in
  let time_str :=
    pretty (duration / 60) +:+ ":" +:+ pad_left 2 (pretty (duration mod 60)) in
  let line := {| line_index := i; line_win := win; line_hero := hero_name;
                 line_kda := kda; line_time := time_str;
                 line_rule := i <? 6 |} in
  mret {| wins := wins; roles := roles; lines := lines st ++ [line] |}.

(** [for i, m in enumerate(ms, i): ...] *)
Fixpoint loop (heroes : catalog) (i : Z) (ms : list match_record)
    (st : loop_state) : outcome loop_state :=
  match ms with
  | [] => mret st
  | m :: rest => st' ← loop_body heroes i m st; loop heroes (i + 1) rest st'
  end.

(** [collections.Counter]: a dictionary in insertion order. *)
Fixpoint counter_add (k : string) (c : list (string * Z))
  : list (string * Z) :=
  match c with
  | [] => [(k, 1)]
  | (k', n) :: rest =>
      if String.eqb k k' then (k', n + 1) :: rest
      else (k', n) :: counter_add k rest
  end.

Definition Counter (xs : list string) : list (string * Z) :=
  foldl (fun c k => counter_add k c) [] xs.

(** [most_common(1)]: [max] over the items by count, which keeps the first
    item among those of the largest count. *)
Definition most_common_1 (c : list (string * Z)) : list (string * Z) :=
  match c with
  | [] => []
  | x :: rest => [foldl (fun best y => if best.2 <? y.2 then y else best) x rest]
  end.

Record header : Type := {
  h_total : Z;
  h_winrate : string;
  h_wins : Z;
  h_losses : Z;
  h_main_role : option (string * Z * Z)
}.

Inductive display : Type :=
  | NoData
  | Summary (h : header) (match_lines : list match_line).

(** [format_matches_for_display] once [heroes] has been awaited, for a
    non-empty [matches]. *)
Definition summarise (heroes : catalog) (matches : list match_record)
  : outcome display :=
  let total := Z.of_nat (length matches) in
  st ← loop heroes 1 (take 10 matches) {| wins := 0; roles := []; lines := [] |};
  let winrate :=
    if total >? 0 then PrimFloat.mul (truediv (wins st) total) (float_of_Z 100)
    else float_of_Z 0 in
  main_role ←
    match roles st with
    | [] => mret None
    | _ :: _ =>
        match most_common_1 (Counter (roles st)) with
        | (main_role, role_count) :: _ =>
            mret (Some (main_role, role_count, Z.of_nat (length (roles st))))
        | [] => Raised IndexError
        end
    end;
  mret (Summary {| h_total := total;
                   h_winrate := format_fixed 1 winrate;
                   h_wins := wins st;
                   h_losses := total - wins st;
                   h_main_role := main_role |}
                (lines st)).

(** The result, paired with [HEROES_CACHE] afterwards. *)
Definition format_matches_for_display (HEROES_CACHE : catalog) (w : sources)
    (matches : list match_record) : outcome display * catalog :=
  match matches with
  | [] => (mret NoData, HEROES_CACHE)
  | _ :: _ =>
      let loaded := get_heroes_data HEROES_CACHE w in
      (summarise loaded.1 matches, loaded.2)
  end.

End Formatter.

(** ** Benchmark analyzer *)

Module Analyzer.

(** The keys of [metrics], in the order of the dictionary literal. *)
Definition metrics : list string :=
  ["gold_per_min"; "xp_per_min"; "kills_per_min"; "hero_damage_per_min";
   "hero_healing_per_min"; "tower_damage"; "last_hits_per_min"].

(** [k in x] *)
Definition py_in (k : string) (x : json) : outcome bool :=
  match x with
  | JObj members => Returned (bool_decide (is_Some (assoc k members)))
  | JArr items =>
      Returned (existsb (fun v => match v with
                                  | JStr s => String.eqb s k
                                  | _ => false
                                  end) items)
  | JStr s => Returned (contains k s)
  | _ => Raised TypeError
  end.

(** [len(x)] *)
Definition len (x : json) : outcome Z :=
  match x with
  | JArr items => Returned (Z.of_nat (length items))
  | JObj members => Returned (Z.of_nat (length members))
  | JStr s => Returned (Z.of_nat (String.length s))
  | _ => Raised TypeError
  end.

(** [x[i]] for an index [0 <= i]. *)
Definition index (x : json) (i : Z) : outcome json :=
  match x with
  | JArr items =>
      match items !! Z.to_nat i with
      | Some v => Returned v
      | None => Raised IndexError
      end
  | JStr s =>
      match String.get (Z.to_nat i) s with
      | Some c => Returned (JStr (String c EmptyString))
      | None => Raised IndexError
      end
  | JObj _ => Raised KeyError
  | _ => Raised TypeError
  end.

(** The sample the analyzer reads for [metric_key], with its index; [None]
    when the metric is passed over. *)
Definition select_sample (bench : json) (metric_key : string)
  : outcome (option (Z * json)) :=
  present ← py_in metric_key bench;
  if present : bool then
    data_points ← getitem bench metric_key;
    if truthy data_points then
      n ← len data_points;
      if n >=? 6 then
        let target_index := Z.min 4 (n - 1) in
        percentile_data ← index data_points target_index;
        mret (Some (target_index, percentile_data))
      else mret None
    else mret None
  else mret None.

Inductive rating : Set :=
  | Excellent | Good | Average | BelowAverage | Poor.

(** [x] as the left operand of [>=] against a float.  The interpreter
    compares an int by value; with the thresholds of the ratings, all
    between 0 and 1, its nearest float compares the same way. *)
Definition comparand (x : json) : outcome float :=
  match x with
  | JInt z => Returned (float_of_Z z)
  | JBool b => Returned (float_of_Z (if b then 1 else 0))
  | JFloat f => Returned f
  | _ => Raised TypeError
  end.

(** [x * 100] *)
Definition times_100 (x : json) : outcome json :=
  match x with
  | JInt z => Returned (JInt (z * 100))
  | JBool b => Returned (JInt (if b then 100 else 0))
  | JFloat f => Returned (JFloat (PrimFloat.mul f (float_of_Z 100)))
  | JStr s => Returned (JStr (String.concat "" (replicate 100 s)))
  | JArr items => Returned (JArr (concat (replicate 100 items)))
  | JNull | JObj _ => Raised TypeError
  end.

(** [format(x, '.1f')] *)
Definition format_1f (x : json) : outcome string :=
  match x with
  | JInt z => f ← float_of_int z; mret (format_fixed 1 f)
  | JBool b => f ← float_of_int (if b then 1 else 0); mret (format_fixed 1 f)
  | JFloat f => Returned (format_fixed 1 f)
  | JStr _ => Raised ValueError
  | _ => Raised TypeError
  end.

(** The interpolated parts of one metric's paragraph.  [block_index] is
    the index the sample was read at; the text does not show it. *)
Record block : Type := {
  block_key : string;
  block_index : Z;
  block_rating : rating;
  block_value : string;
  block_percent : string
}.

(** The paragraph written for [metric_key] from the sample read at
    [target_index]. *)
Definition paragraph (metric_key : string) (target_index : Z)
    (percentile_data : json) : outcome block :=
  percentile ← get percentile_data "percentile" (JInt 0);
  value ← get percentile_data "value" (JInt 0);
  p ← comparand percentile;
  let r :=
    if PrimFloat.leb 0x1.999999999999ap-1 p then Excellent
    else if PrimFloat.leb 0x1.3333333333333p-1 p then Good
    else if PrimFloat.leb 0x1.999999999999ap-2 p then Average
    else if PrimFloat.leb 0x1.999999999999ap-3 p then BelowAverage
    else Poor in
  v ← format_1f value;
  percent ← times_100 percentile;
  pc ← format_1f percent;
  mret {| block_key := metric_key;
          block_index := target_index;
          block_rating := r;
          block_value := v;
          block_percent := pc |}.

(** One pass of the loop over [metrics]. *)
Definition metric_block (bench : json) (metric_key : string)
  : outcome (option block) :=
  selected ← select_sample bench metric_key;
  match selected with
  | None => mret None
  | Some (target_index, percentile_data) =>
      b ← paragraph metric_key target_index percentile_data;
      mret (Some b)
  end.

(** The paragraphs of the analysis, in the order of [metrics]. *)
Fixpoint analysis_blocks (bench : json) (keys : list string)
  : outcome (list block) :=
  match keys with
  | [] => mret []
  | k :: rest =>
      b ← metric_block bench k;
      bs ← analysis_blocks bench rest;
      mret (from_option (fun x => [x]) [] b ++ bs)
  end.

(** What [analyze_command] answers for a benchmark document: the "no data"
    message, or the analysis text with its paragraphs and, when [advice]
    holds, the closing advice. *)
Inductive analysis : Type :=
  | NoAnalysis
  | Analysis (paragraphs : list block) (advice : bool).

(** [len(analysis_text.split('\n'))]: the heading ends its 3 lines with a
    newline each and a paragraph its 5 lines; no interpolated part holds a
    newline. *)
Definition text_parts (paragraphs : list block) : Z :=
  4 + 5 * Z.of_nat (length paragraphs).

(** [analyze_command] from the benchmark document on; a raised exception is
    answered by the handler with its error message. *)
Definition analyze_document (bench : json) : outcome analysis :=
  refused ← (if negb (truthy bench) then mret true else py_in "error" bench);
  if refused : bool then mret NoAnalysis
  else
    paragraphs ← analysis_blocks bench metrics;
    mret (Analysis paragraphs (text_parts paragraphs >? 10)).

End Analyzer.

(** ** Score store *)

Module Storage.

Record user_row : Type := {
  account_id : Z;
  score : Z;
  created_at : Z
}.

Record friend_row : Type := {
  user_id : Z;
  friend_account_id : Z;
  friend_name : string
}.

(** The two tables; [users] is keyed by its primary key [telegram_id]. *)
Record database : Type := {
  users : gmap Z user_row;
  friends : list friend_row
}.

(** The module-level settings [get_conn] reads. *)
Record config : Type := {
  USE_SQLITE : bool;
  SQLITE_AVAILABLE : bool;
  PSYCOPG2_AVAILABLE : bool;
  DATABASE_URL : option string
}.

(** How the database driver answers during one call: each step either
    goes through or raises. *)
Record driver : Type := {
  connect : outcome unit;
  execute : outcome unit;
  commit : outcome unit;
  close : outcome unit
}.

Definition get_conn (cfg : config) (drv : driver) : outcome unit :=
  if USE_SQLITE cfg && SQLITE_AVAILABLE cfg then connect drv
  else if PSYCOPG2_AVAILABLE cfg
          && from_option (fun url => negb (String.eqb url EmptyString))
                         false (DATABASE_URL cfg)
  then connect drv
  else Raised GenericException.

(** What the column type [INTEGER] holds under PostgreSQL: 32 bits. *)
Definition integer_range (z : Z) : bool :=
  (-2147483648 <=? z) && (z <=? 2147483647).

(** [UPDATE users SET score = score + points WHERE telegram_id = ...], when
    the database accepts it. *)
Definition add_to_score (telegram_id points : Z) (db : database) : database :=
  {| users := alter (fun row => {| account_id := account_id row;
                                   score := score row + points;
                                   created_at := created_at row |})
                    telegram_id (users db);
     friends := friends db |}.

(** Whether the database refuses that statement.  [score] is declared
    [INTEGER]: PostgreSQL refuses the update of a row whose new score leaves
    the 32-bit range, and has nothing to refuse when no row matches.  SQLite
    keeps 64-bit integers and does not refuse a sum within them; the model
    follows it for such sums. *)
Definition score_refused (uses_sqlite : bool) (telegram_id points : Z)
    (db : database) : bool :=
  negb uses_sqlite
  && from_option (fun row => negb (integer_range (score row + points)))
                 false (users db !! telegram_id).

(** The statements inside the [try] of [update_score]: the database once
    they have run, and whether they ran to the end. *)
Definition update_score_body (cfg : config) (drv : driver) (db : database)
    (telegram_id points : Z) : database * outcome unit :=
  match get_conn cfg drv with
  | Raised e => (db, Raised e)
  | Returned _ =>
      match execute drv with
      | Raised e => (db, Raised e)
      | Returned _ =>
          if score_refused (USE_SQLITE cfg) telegram_id points db
          then (db, Raised DatabaseError)
          else
            let updated :=
              if USE_SQLITE cfg then add_to_score telegram_id points db
              else add_to_score telegram_id points db in
            match commit drv with
            | Raised e => (db, Raised e)
            | Returned _ => (updated, close drv)
            end
      end
  end.

(** The boolean returned, paired with the database afterwards. *)
Definition update_score (cfg : config) (drv : driver) (db : database)
    (telegram_id points : Z) : bool * database :=
  let ran := update_score_body cfg drv db telegram_id points in
  match ran.2 with
  | Returned _ => (true, ran.1)
  | Raised _ => (false, ran.1)
  end.

End Storage.

(** ** The specification's vocabulary *)

Module Spec.
Import Formatter.

(** The integer a string of decimal digits denotes, by positional notation. *)
Fixpoint decimal_value (s : string) : Z :=
  match s with
  | EmptyString => 0
  | String c rest =>
      digit_val c * 10 ^ Z.of_nat (String.length rest) + decimal_value rest
  end.

(** The player was on the radiant side and radiant won, or on the dire side
    and radiant lost; the side is the player slot against 128. *)
Definition won (m : match_record) : Prop :=
  (default 0 (player_slot m) < 128 ∧ default false (radiant_win m) = true)
  ∨ (128 <= default 0 (player_slot m)
     ∧ default false (radiant_win m) = false).

#[global] Instance won_dec m : Decision (won m).
Proof. unfold won. apply _. Defined.

(** The lane-role table. *)
Definition role_name (code : Z) : option string :=
  match code with
  | 1 => Some "Safe Lane"
  | 2 => Some "Mid Lane"
  | 3 => Some "Off Lane"
  | 4 | 5 => Some "Support"
  | _ => None
  end.

(** The roles of the records that have one, in the order of the records. *)
Definition tallied (ms : list match_record) : list string :=
  omap (fun m => role_name (default 0 (lane_role m))) ms.

Definition count_wins (ms : list match_record) : Z :=
  Z.of_nat (length (filter won ms)).

(** How often [r] occurs in [xs]. *)
Definition occurrences (r : string) (xs : list string) : Z :=
  Z.of_nat (length (filter (fun x => x = r) xs)).

(** [r], counted [c] times, is the mode of [xs], and among the values
    counted as often it is the one met first. *)
Definition first_mode (r : string) (c : Z) (xs : list string) : Prop :=
  c = occurrences r xs
  ∧ (∀ r', occurrences r' xs <= c)
  ∧ ∃ before after, xs = before ++ r :: after
      ∧ (r ∉ before)
      ∧ ∀ r', r' ∈ before → occurrences r' xs < c.

(** An input, already trimmed, that is dispatched to the vanity rule: not a
    short run of digits, no /profiles/ segment, an /id/ segment. *)
Definition vanity_shaped (t : string) : Prop :=
  isdigit t && (Z.of_nat (String.length t) <? 11) = false
  ∧ contains "/profiles/" t = false
  ∧ contains "/id/" t = true.

(** An input, already trimmed, that fits none of the four shapes. *)
Definition shapeless (t : string) : Prop :=
  isdigit t = false
  ∧ contains "/profiles/" t = false
  ∧ contains "/id/" t = false.

(** The decoded answer of the vanity endpoint reports success: it is an
    object whose member "response" is an object whose member "success"
    equals 1. *)
Definition reports_success (data : json) : Prop :=
  ∃ response success,
    get data "response" (JObj []) = Returned response
    ∧ get response "success" JNull = Returned success
    ∧ eq_one success = true.

(** Whether every step of the database call goes through. *)
Definition runs_clean (cfg : Storage.config) (drv : Storage.driver) : Prop :=
  raises (Storage.get_conn cfg drv) = false ∧ raises (Storage.execute drv) = false
  ∧ raises (Storage.commit drv) = false ∧ raises (Storage.close drv) = false.

(** [c[k]] for a counter: the count stored for [k], 0 when there is none. *)
Fixpoint counter_get (k : string) (c : list (string * Z)) : Z :=
  match c with
  | [] => 0
  | (k', n) :: rest => if String.eqb k k' then n else counter_get k rest
  end.

(** [wins] out of [total], as a percentage. *)
Definition percentage (wins total : Z) : float :=
  PrimFloat.mul (truediv wins total) (float_of_Z 100).

(** A record that has nothing but a player slot and a radiant-win flag. *)
Definition bare_record (slot : Z) (radiant_won : bool) : match_record :=
  {| player_slot := Some slot; radiant_win := Some radiant_won;
     lane_role := None; hero_id := None; kills := None; deaths := None;
     assists := None; duration := None |}.

(** A record that has nothing but a lane-role code. *)
Definition lane_record (code : Z) : match_record :=
  {| player_slot := None; radiant_win := None;
     lane_role := Some code; hero_id := None; kills := None; deaths := None;
     assists := None; duration := None |}.

End Spec.

(** ** The other persistence calls *)

Module Persistence.
Import Storage.

(** The statements a writing call runs inside its [try]: connect, execute
    the statement (which the database may refuse), commit, close.  The
    result is the database afterwards and whether the statements ran to the
    end; nothing is stored unless the commit goes through. *)
Definition write_call (cfg : config) (drv : driver) (db : database)
    (statement : database -> outcome database) : database * outcome unit :=
  match get_conn cfg drv with
  | Raised e => (db, Raised e)
  | Returned _ =>
      match execute drv with
      | Raised e => (db, Raised e)
      | Returned _ =>
          match statement db with
          | Raised e => (db, Raised e)
          | Returned updated =>
              match commit drv with
              | Raised e => (db, Raised e)
              | Returned _ => (updated, close drv)
              end
          end
      end
  end.

(** The statements a reading call runs inside its [try]: connect, execute
    and fetch, close. *)
Definition read_call {A} (cfg : config) (drv : driver) (fetched : A)
  : outcome A :=
  _ ← get_conn cfg drv;
  _ ← execute drv;
  _ ← close drv;
  mret fetched.

(** A row as [INSERT INTO users (telegram_id, account_id)] creates it: the
    score takes its default 0, [created_at] the current time. *)
Definition fresh_row (bound_account now : Z) : user_row :=
  {| account_id := bound_account; score := 0; created_at := now |}.

(** [INSERT OR REPLACE INTO users (telegram_id, account_id)]: a row of the
    same key is removed and the new row takes its place. *)
Definition insert_or_replace (telegram_id bound_account now : Z)
    (db : database) : database :=
  {| users := <[telegram_id := fresh_row bound_account now]> (users db);
     friends := friends db |}.

(** [INSERT ... ON CONFLICT (telegram_id) DO UPDATE SET account_id = ...]:
    a row of the same key keeps its other columns. *)
Definition insert_or_update (telegram_id bound_account now : Z)
    (db : database) : database :=
  {| users :=
       match users db !! telegram_id with
       | Some row =>
           <[telegram_id := {| account_id := bound_account;
                               score := score row;
                               created_at := created_at row |}]> (users db)
       | None => <[telegram_id := fresh_row bound_account now]> (users db)
       end;
     friends := friends db |}.

(** The boolean returned, paired with the database afterwards; [now] is the
    database's clock. *)
Definition bind_user (cfg : config) (drv : driver) (now : Z) (db : database)
    (telegram_id bound_account : Z) : bool * database :=
  let ran :=
    write_call cfg drv db
      (fun db => mret (if USE_SQLITE cfg
                       then insert_or_replace telegram_id bound_account now db
                       else insert_or_update telegram_id bound_account now db))
  in
  match ran.2 with
  | Returned _ => (true, ran.1)
  | Raised _ => (false, ran.1)
  end.

Definition get_account_id (cfg : config) (drv : driver) (db : database)
    (telegram_id : Z) : option Z :=
  match read_call cfg drv (users db !! telegram_id) with
  | Returned (Some row) => Some (account_id row)
  | Returned None => None
  | Raised _ => None
  end.

(** [INSERT INTO friends (user_id, friend_account_id, friend_name)].  The
    PostgreSQL table declares [user_id BIGINT REFERENCES users(telegram_id)],
    so there the statement is refused for a [user_id] without a row in
    [users]; the SQLite connection is opened without turning foreign keys
    on, so there the clause has no effect. *)
Definition insert_friend (uses_sqlite : bool) (telegram_id friend_id : Z)
    (name : string) (db : database) : outcome database :=
  if negb uses_sqlite && bool_decide (users db !! telegram_id = None)
  then Raised DatabaseError
  else mret {| users := users db;
               friends := friends db
                          ++ [{| user_id := telegram_id;
                                 friend_account_id := friend_id;
                                 friend_name := name |}] |}.

Definition add_friend (cfg : config) (drv : driver) (db : database)
    (telegram_id friend_id : Z) (name : string) : bool * database :=
  let ran :=
    write_call cfg drv db
      (insert_friend (USE_SQLITE cfg) telegram_id friend_id name) in
  match ran.2 with
  | Returned _ => (true, ran.1)
  | Raised _ => (false, ran.1)
  end.

(** The row [get_user_stats] builds. *)
Record user_stats : Type := {
  stats_telegram_id : Z;
  stats_score : Z;
  stats_created_at : Z;
  friends_count : Z
}.

(** [SELECT u.telegram_id, u.score, u.created_at, COUNT(f.id) ... LEFT JOIN
    friends f ON u.telegram_id = f.user_id WHERE u.telegram_id = ...] *)
Definition select_user_stats (db : database) (telegram_id : Z)
  : option user_stats :=
  row ← users db !! telegram_id;
  Some {| stats_telegram_id := telegram_id;
          stats_score := score row;
          stats_created_at := created_at row;
          friends_count :=
            Z.of_nat (length (filter (fun f => user_id f = telegram_id)
                                     (friends db))) |}.

Definition get_user_stats (cfg : config) (drv : driver) (db : database)
    (telegram_id : Z) : option user_stats :=
  match read_call cfg drv (select_user_stats db telegram_id) with
  | Returned stats => stats
  | Raised _ => None
  end.

End Persistence.

(** ** Stats client *)

Module StatsClient.

(** [get_player_data], given how the GET on the player endpoint goes. *)
Definition get_player_data (answer : http_result) : option json :=
  match
    r ← answer;
    if r.1 =? 200 then data ← r.2; mret (Some data) else mret None
  with
  | Returned result => result
  | Raised _ => None
  end.

(** [xs[:limit]] *)
Definition slice_to {A} (limit : Z) (xs : list A) : list A :=
  if 0 <=? limit then take (Z.to_nat limit) xs
  else take (length xs - Z.to_nat (- limit)) xs.

(** [get_recent_matches], given how the GET on the recent-matches endpoint
    goes. *)
Definition get_recent_matches (answer : http_result) (limit : Z)
  : list json :=
  match
    r ← answer;
    if r.1 =? 200 then
      matches ← r.2;
      mret (match matches with
            | JArr items => slice_to limit items
            | _ => []
            end)
    else mret []
  with
  | Returned result => result
  | Raised _ => []
  end.

End StatsClient.

(** ** The handler that binds a profile *)

Module Handlers.
Import Storage Persistence StatsClient.

(** The messages [process_steam_url] sends.  A bound profile is reported
    with the player's name ([None] when the default name is used) and the
    account id. *)
Inductive reply : Type :=
  | NotRecognised
  | PlayerUnavailable
  | Bound (profile_name : option json) (bound_account : Z)
  | ProcessingError.

(** How the chat answers during one call: the typing action and each message
    either go through or raise. *)
Record chat : Type := {
  typing : outcome unit;
  answer : reply -> outcome unit
}.

(** [x.get(k, dflt)] with [None] standing for the default. *)
Definition get_or_default (x : json) (k : string) : outcome (option json) :=
  match x with
  | JObj members => Returned (assoc k members)
  | _ => Raised AttributeError
  end.

(** [await message.answer(r)], after the messages [sent]. *)
Definition say (c : chat) (r : reply) (sent : list reply)
  : list reply * outcome unit :=
  match answer c r with
  | Returned _ => (sent ++ [r], Returned ())
  | Raised e => (sent, Raised e)
  end.

Section WithEnvironment.

Variable STEAM_API_KEY : option string.
Variable http_get : string -> http_result.
(** The behaviour of the player endpoint for an account id. *)
Variable player_api : Z -> http_result.
Variable cfg : config.
Variable drv : driver.
Variable now : Z.

(** The statements inside the [try] of [process_steam_url]: the messages
    sent, the database afterwards, and whether they ran to the end. *)
Definition process_steam_url_body (c : chat) (db : database) (user_id : Z)
    (steam_url : string) : list reply * database * outcome unit :=
  match typing c with
  | Raised e => ([], db, Raised e)
  | Returned _ =>
      match Resolver.extract_account_id_safe STEAM_API_KEY http_get steam_url
      with
      | Raised e => ([], db, Raised e)
      | Returned resolved =>
          let account_id := default 0 resolved in
          if account_id =? 0 then
            let told := say c NotRecognised [] in (told.1, db, told.2)
          else
            let player_data := get_player_data (player_api account_id) in
            if negb (from_option truthy false player_data) then
              let told := say c PlayerUnavailable [] in (told.1, db, told.2)
            else
              match
                profile ← get (default JNull player_data) "profile" (JObj []);
                get_or_default profile "personaname"
              with
              | Raised e => ([], db, Raised e)
              | Returned profile_name =>
                  let bound := bind_user cfg drv now db user_id account_id in
                  let told := say c (Bound profile_name account_id) [] in
                  (told.1, bound.2, told.2)
              end
      end
  end.

Definition process_steam_url (c : chat) (db : database) (user_id : Z)
    (steam_url : string) : list reply * database * outcome unit :=
  let ran := process_steam_url_body c db user_id steam_url in
  match ran.2 with
  | Returned _ => ran
  | Raised _ =>
      let told := say c ProcessingError ran.1.1 in
      (told.1, ran.1.2, told.2)
  end.

End WithEnvironment.

End Handlers.

(** ** Further vocabulary and sample values *)

Module Vocabulary.
Import Storage Persistence Handlers.

(** The vanity endpoint answers 200 with a document that reports success
    and carries a [steamid] that [int()] reads as [steam64]. *)
Definition answers_steam64 (answer : http_result) (steam64 : Z) : Prop :=
  ∃ data response success steamid,
    answer = Returned (200, Returned data)
    ∧ get data "response" (JObj []) = Returned response
    ∧ get response "success" JNull = Returned success
    ∧ eq_one success = true
    ∧ getitem response "steamid" = Returned steamid
    ∧ int_of steamid = Returned steam64.

(** The typing action and every message go through. *)
Definition chat_works (c : chat) : Prop :=
  typing c = Returned () ∧ ∀ r, answer c r = Returned ().

(** A PostgreSQL configuration, an SQLite one, and one without a database
    driver. *)
Definition postgres : config :=
  {| USE_SQLITE := false; SQLITE_AVAILABLE := false;
     PSYCOPG2_AVAILABLE := true; DATABASE_URL := Some "postgres://bot" |}.

Definition sqlite : config :=
  {| USE_SQLITE := true; SQLITE_AVAILABLE := true;
     PSYCOPG2_AVAILABLE := true; DATABASE_URL := Some "dota2_bot.db" |}.

Definition no_driver : config :=
  {| USE_SQLITE := false; SQLITE_AVAILABLE := true;
     PSYCOPG2_AVAILABLE := false; DATABASE_URL := None |}.

(** A driver on which every step goes through, and one whose commit fails. *)
Definition sound_driver : driver :=
  {| connect := Returned (); execute := Returned ();
     commit := Returned (); close := Returned () |}.

Definition failing_commit : driver :=
  {| connect := Returned (); execute := Returned ();
     commit := Raised DatabaseError; close := Returned () |}.

(** A database with one user, who has 15 points and one friend. *)
Definition one_user : database :=
  {| users := {[ 7 := {| account_id := 39734273; score := 15;
                         created_at := 100 |} ]};
     friends := [{| user_id := 7; friend_account_id := 5;
                    friend_name := "ally" |}] |}.

Definition quiet_chat : chat :=
  {| typing := Returned (); answer := fun _ => Returned () |}.

End Vocabulary.

(** * Properties *)

Import Resolver Heroes Formatter Analyzer Storage Spec.
Import Persistence StatsClient Handlers Vocabulary.

(** ** The builtins on sample inputs *)

Example int_of_str_samples :
  int_of_str " 1_000 " = Returned 1000
  ∧ int_of_str "-0" = Returned 0
  ∧ int_of_str "007" = Returned 7
  ∧ int_of_str "+ 5" = Raised ValueError
  ∧ int_of_str "1__0" = Raised ValueError
  ∧ int_of_str "" = Raised ValueError.
Proof. by repeat split. Qed.

Example string_samples :
  strip "  ab/ " = "ab/"
  ∧ rstrip "/" "ab//" = "ab"
  ∧ split "/" "a//b" = ["a"; ""; "b"]
  ∧ last_segment "/" "a/" = ""
  ∧ last_segment "/" "abc" = "abc"
  ∧ contains "/id/" "x/id/y" = true.
Proof. by repeat split. Qed.

Example float_of_int_samples :
  float_of_int (2 ^ 1024 - 2 ^ 970) = Raised OverflowError
  ∧ raises (float_of_int (2 ^ 1024 - 2 ^ 970 - 1)) = false
  ∧ float_of_int (- 10 ^ 400) = Raised OverflowError
  ∧ float_of_Z (2 ^ 63 + 1) = 0x1p+63%float
  ∧ truediv 0 (-5) = PrimFloat.neg_zero.
Proof. repeat split; by vm_compute. Qed.

Example format_fixed_samples :
  format_fixed 1 (PrimFloat.mul (truediv 10 11) (float_of_Z 100)) = "90.9"
  ∧ format_fixed 1 (PrimFloat.mul (truediv 1 16) (float_of_Z 100)) = "6.2"
  ∧ format_fixed 1 (PrimFloat.mul (truediv 3 80) (float_of_Z 100)) = "3.8"
  ∧ format_fixed 2 (truediv 7 3) = "2.33"
  ∧ format_fixed 1 (float_of_Z 0) = "0.0".
Proof. by repeat split. Qed.

Example counter_samples :
  Formatter.Counter ["b"; "a"; "a"; "b"; "c"] = [("b", 2); ("a", 2); ("c", 1)]
  ∧ Formatter.most_common_1 (Formatter.Counter ["b"; "a"; "a"; "b"; "c"])
    = [("b", 2)].
Proof. by repeat split. Qed.

(** ** Strings *)

Section StringFacts.

Lemma append_cons c (a b : string) : String c a +:+ b = String c (a +:+ b).
Proof. reflexivity. Qed.

Lemma append_empty (b : string) : EmptyString +:+ b = b.
Proof. reflexivity. Qed.

Lemma append_assoc (a b c : string) : (a +:+ b) +:+ c = a +:+ (b +:+ c).
Proof. induction a as [|x a IH]; [done|]. by rewrite !append_cons, IH. Qed.

Lemma all_chars_app p (a b : string) :
  all_chars p (a +:+ b) = all_chars p a && all_chars p b.
Proof.
  induction a as [|x a IH]; [done|].
  rewrite append_cons. cbn. rewrite IH. by rewrite andb_assoc.
Qed.

Lemma all_chars_weaken (p q : ascii -> bool) s :
  (∀ c, p c = true → q c = true) →
  all_chars p s = true → all_chars q s = true.
Proof.
  intros Hpq. induction s as [|c s IH]; [done|]. cbn.
  intros [Hc Hs]%andb_true_iff. rewrite (Hpq _ Hc). cbn. auto.
Qed.

Lemma lstrip_with_app p (a : string) c s :
  p c = false →
  lstrip_with p (a +:+ String c s) = lstrip_with p a +:+ String c s.
Proof.
  intros Hc. induction a as [|x a IH].
  - rewrite append_empty. cbn. by rewrite Hc.
  - rewrite append_cons. cbn. destruct (p x); [apply IH | done].
Qed.

Lemma rstrip_with_app p (a s : string) :
  rstrip_with p s ≠ EmptyString →
  rstrip_with p (a +:+ s) = a +:+ rstrip_with p s.
Proof.
  intros Hs. induction a as [|x a IH]; [done|].
  rewrite !append_cons. cbn. rewrite IH.
  destruct (a +:+ rstrip_with p s) eqn:E; [|done].
  destruct a; [by rewrite append_empty in E | by rewrite append_cons in E].
Qed.

Lemma rstrip_with_id p s :
  all_chars (fun c => negb (p c)) s = true → rstrip_with p s = s.
Proof.
  induction s as [|c s IH]; [done|]. cbn.
  intros [Hc Hs]%andb_true_iff. rewrite (IH Hs).
  apply negb_true_iff in Hc. rewrite Hc. by destruct s.
Qed.

Lemma contains_app_r sub (a s : string) :
  contains sub s = true → contains sub (a +:+ s) = true.
Proof.
  intros Hs. induction a as [|x a IH]; [done|].
  rewrite append_cons. cbn [contains]. rewrite IH. apply orb_true_r.
Qed.

Lemma contains_first_char c sub s :
  all_chars (fun x => negb (Ascii.eqb x c)) s = true →
  contains (String c sub) s = false.
Proof.
  induction s as [|x s IH]; [done|]. cbn [all_chars contains].
  intros [Hx Hs]%andb_true_iff. rewrite (IH Hs), orb_false_r.
  cbn. destruct (ascii_dec c x) as [ -> | ]; [|done].
  by rewrite Ascii.eqb_refl in Hx.
Qed.

Lemma split_nonempty sep s : split sep s ≠ [].
Proof.
  destruct s as [|c s]; [done|]. cbn.
  destruct (Ascii.eqb c sep); [done|]. by destruct (split sep s).
Qed.

Lemma split_app sep (a s : string) :
  split sep (a +:+ String sep s) = split sep a ++ split sep s.
Proof.
  induction a as [|x a IH].
  - rewrite append_empty. cbn. by rewrite Ascii.eqb_refl.
  - rewrite append_cons. cbn. rewrite IH. destruct (Ascii.eqb x sep); [done|].
    pose proof (split_nonempty sep a). by destruct (split sep a).
Qed.

Lemma last_segment_app sep (a s : string) :
  last_segment sep (a +:+ String sep s) = last_segment sep s.
Proof.
  unfold last_segment. rewrite split_app.
  pose proof (split_nonempty sep s) as Hne.
  induction (split sep a) as [|y ys IH]; [done|].
  cbn. destruct (ys ++ split sep s) eqn:E; [|exact IH].
  by apply app_eq_nil in E as [_ ?].
Qed.

(** What a decimal digit is not. *)
Lemma decimal_char c :
  is_decimal c = true →
  isdigit_char c = true ∧ int_space c = false ∧ isspace c = false
  ∧ Ascii.eqb c "/" = false ∧ Ascii.eqb "/" c = false
  ∧ 0 <= digit_val c <= 9.
Proof.
  destruct c as [[] [] [] [] [] [] [] []]; cbv; intros; try discriminate;
    repeat split; discriminate.
Qed.

Lemma int_digits_decimal s : ∀ acc after,
  all_chars is_decimal s = true →
  s ≠ EmptyString ∨ after = true →
  int_digits acc after s
  = Some (acc * 10 ^ Z.of_nat (String.length s) + decimal_value s).
Proof.
  induction s as [|c s IH]; intros acc after Hall Hne.
  - destruct Hne as [ | -> ]; [done|]. cbn. f_equal. lia.
  - cbn [all_chars] in Hall. apply andb_true_iff in Hall as [Hc Hs].
    cbn [int_digits]. rewrite Hc, IH by auto.
    f_equal. cbn [decimal_value String.length].
    rewrite Nat2Z.inj_succ, Z.pow_succ_r by lia. lia.
Qed.

Lemma int_of_str_decimal s :
  s ≠ EmptyString → all_chars is_decimal s = true →
  int_of_str s = Returned (decimal_value s).
Proof.
  intros Hne Hall. unfold int_of_str.
  destruct s as [|c s]; [done|].
  pose proof Hall as Hall'. cbn [all_chars] in Hall'.
  apply andb_true_iff in Hall' as [Hc _].
  destruct (decimal_char c Hc) as (_ & Hsp & _).
  cbn [lstrip_with]. rewrite Hsp.
  rewrite rstrip_with_id.
  2:{ apply (all_chars_weaken is_decimal); [|done].
      intros x Hx. by destruct (decimal_char x Hx) as (_ & -> & _). }
  assert (int_digits 0 false (String c s) = Some (decimal_value (String c s)))
    as Hd by (rewrite int_digits_decimal by auto; f_equal; lia).
  destruct c as [[] [] [] [] [] [] [] []]; try discriminate Hc;
    by rewrite Hd.
Qed.

Lemma isdigit_decimal s :
  s ≠ EmptyString → all_chars is_decimal s = true → isdigit s = true.
Proof.
  intros Hne Hall. destruct s; [done|]. unfold isdigit.
  apply (all_chars_weaken is_decimal); [|done].
  intros c Hc. by destruct (decimal_char c Hc) as (-> & _).
Qed.

Lemma decimal_no_slash sub s :
  all_chars is_decimal s = true → contains (String "/" sub) s = false.
Proof.
  intros Hall. apply contains_first_char.
  apply (all_chars_weaken is_decimal); [|done].
  intros c Hc. destruct (decimal_char c Hc) as (_ & _ & _ & -> & _). done.
Qed.

End StringFacts.

(** ** Identity resolver *)

Section ResolverFacts.

Variable STEAM_API_KEY : option string.
Variable http_get : string -> http_result.

Local Abbreviation normal s := (rstrip "/" (strip s)).

(** Rule 2 in general: the last segment of a profile URL has the offset
    subtracted, whatever its size. *)
Lemma profile_input_resolution s n :
  isdigit (normal s) && (Z.of_nat (String.length (normal s)) <? 11) = false →
  contains "/profiles/" (normal s) = true →
  int_of_str (last_segment "/" (normal s)) = Returned n →
  extract_account_id_safe STEAM_API_KEY http_get s
  = Returned (Some (n - 76561197960265728)).
Proof.
  intros Hshort Hprof Hint.
  unfold extract_account_id_safe, extract_account_id_body. cbv zeta.
  rewrite Hshort, Hprof, Hint. reflexivity.
Qed.

(** C3: an all-digit input (after trimming white space and trailing
    slashes) of fewer than 11 characters resolves to its value; one of 11 or
    more characters resolves to its value minus 76561197960265728 when the
    value is greater than 76561197960265728, and to its value otherwise. *)
Theorem digit_input_resolution s :
  normal s ≠ EmptyString →
  all_chars is_decimal (normal s) = true →
  extract_account_id_safe STEAM_API_KEY http_get s =
  Returned (Some
    (if Z.of_nat (String.length (normal s)) <? 11
     then decimal_value (normal s)
     else if decimal_value (normal s) >? 76561197960265728
          then decimal_value (normal s) - 76561197960265728
          else decimal_value (normal s))).
Proof.
  intros Hne Hall.
  unfold extract_account_id_safe, extract_account_id_body. cbv zeta.
  rewrite (isdigit_decimal _ Hne Hall), (int_of_str_decimal _ Hne Hall).
  rewrite !(decimal_no_slash _ _ Hall).
  destruct (Z.of_nat (String.length (normal s)) <? 11); [reflexivity|].
  cbn. by destruct (decimal_value (normal s) >? 76561197960265728).
Qed.

Lemma isdigit_all_chars s : isdigit s = true → all_chars isdigit_char s = true.
Proof. by destruct s. Qed.

Lemma normal_keeps_suffix prefix c suffix :
  isspace c = false →
  rstrip_with isspace (String c suffix) ≠ EmptyString →
  rstrip "/" (rstrip_with isspace (String c suffix)) ≠ EmptyString →
  normal (prefix +:+ String c suffix)
  = lstrip_with isspace prefix
    +:+ rstrip "/" (rstrip_with isspace (String c suffix)).
Proof.
  intros Hc Hsp Hsl. unfold strip, rstrip in *.
  rewrite lstrip_with_app by done.
  rewrite rstrip_with_app by done. by rewrite rstrip_with_app.
Qed.

(** C8: a profile URL ending in /profiles/76561198000000001 resolves to
    76561198000000001 - 76561197960265728 = 39734273, the offset being
    subtracted once. *)
Theorem profile_url_example prefix :
  extract_account_id_safe STEAM_API_KEY http_get
    (prefix +:+ "/profiles/76561198000000001")
  = Returned (Some (steam64_to_account_id 76561198000000001))
  ∧ steam64_to_account_id 76561198000000001 = 39734273
  ∧ 76561198000000001 - 76561197960265728 = 39734273.
Proof.
  split; [|by split].
  pose proof (normal_keeps_suffix prefix "/" "profiles/76561198000000001")
    as Hn.
  change (String "/" "profiles/76561198000000001")
    with "/profiles/76561198000000001" in Hn.
  specialize (Hn eq_refl). cbv beta in Hn.
  replace (rstrip_with isspace "/profiles/76561198000000001")
    with "/profiles/76561198000000001" in Hn by reflexivity.
  replace (rstrip "/" "/profiles/76561198000000001")
    with "/profiles/76561198000000001" in Hn by reflexivity.
  specialize (Hn ltac:(discriminate) ltac:(discriminate)).
  set (q := lstrip_with isspace prefix) in Hn.
  apply (profile_input_resolution _ 76561198000000001); rewrite Hn.
  - destruct (isdigit _) eqn:E; [|done].
    apply isdigit_all_chars in E. rewrite all_chars_app in E.
    replace (all_chars isdigit_char "/profiles/76561198000000001")
      with false in E by reflexivity.
    by rewrite andb_false_r in E.
  - by apply contains_app_r.
  - change "/profiles/76561198000000001"
      with ("/profiles" +:+ String "/" "76561198000000001").
    rewrite <- append_assoc, last_segment_app. reflexivity.
Qed.

(** C2 (the code on a profile URL whose last segment is below the offset):
    an AccountIdentifier is to be non-negative, yet the segment 123 resolves,
    successfully, to a negative number.  The bare-number rule compares with
    the offset before subtracting; the profile rule does not. *)
Theorem profile_segment_below_offset :
  extract_account_id_safe STEAM_API_KEY http_get
    "https://steamcommunity.com/profiles/123"
  = Returned (Some (-76561197960265605))
  ∧ -76561197960265605 < 0.
Proof. split; [reflexivity | lia]. Qed.

(** [str.isdigit] accepts the superscript digits, which [int] rejects: the
    one-character input U+00B2 passes the first test, fails to convert, and
    resolves to no identifier. *)
Remark superscript_digit_input :
  isdigit (String "178" EmptyString) = true
  ∧ extract_account_id_safe STEAM_API_KEY http_get (String "178" EmptyString)
    = Returned None.
Proof. by split. Qed.

(** C5: the resolver never lets an exception through, and it answers "no
    identifier" whenever its body raises, whenever the vanity call fails
    (request raising, status other than 200, body that does not decode,
    answer that does not report success), when no credential is configured,
    and on an input that fits no shape or whose profile segment is not an
    integer. *)
Theorem resolver_failure_policy s :
  let result := extract_account_id_safe STEAM_API_KEY http_get s in
  (∃ r, result = Returned r)
  ∧ (raises (extract_account_id_body STEAM_API_KEY http_get s) = true →
     result = Returned None)
  ∧ (vanity_shaped (normal s) →
     (STEAM_API_KEY = None ∨ STEAM_API_KEY = Some EmptyString →
      result = Returned None)
     ∧ ∀ key, STEAM_API_KEY = Some key → key ≠ EmptyString →
       let answer :=
         http_get (vanity_url key (last_segment "/" (normal s))) in
       (∀ e, answer = Raised e → result = Returned None)
       ∧ (∀ status body, answer = Returned (status, body) → status ≠ 200 →
          result = Returned None)
       ∧ (∀ e, answer = Returned (200, Raised e) → result = Returned None)
       ∧ (∀ data, answer = Returned (200, Returned data) →
          ¬ reports_success data → result = Returned None))
  ∧ (shapeless (normal s) → result = Returned None)
  ∧ (isdigit (normal s) && (Z.of_nat (String.length (normal s)) <? 11)
     = false →
     contains "/profiles/" (normal s) = true →
     raises (int_of_str (last_segment "/" (normal s))) = true →
     result = Returned None).
Proof.
  cbv zeta. unfold extract_account_id_safe.
  split; [|split; [|split; [|split]]].
  - destruct (extract_account_id_body _ _ s); cbn; eauto.
  - by destruct (extract_account_id_body _ _ s).
  - intros (Hshort & Hprof & Hid).
    unfold extract_account_id_body. cbv zeta. rewrite Hshort, Hprof, Hid.
    split.
    + by intros [-> | ->].
    + intros key -> Hkey. destruct key as [|c key]; [done|].
      repeat split.
      * intros e ->. reflexivity.
      * intros status body -> Hst. cbn.
        apply Z.eqb_neq in Hst. by rewrite Hst.
      * intros e ->. reflexivity.
      * intros data -> Hno. cbn.
        destruct (get data "response" (JObj [])) as [response|] eqn:E1;
          [|done].
        cbn. destruct (get response "success" JNull) as [success|] eqn:E2;
          [|done].
        cbn. destruct (eq_one success) eqn:E3; [|done].
        destruct Hno. by exists response, success.
  - intros (Hdig & Hprof & Hid).
    unfold extract_account_id_body. cbv zeta.
    by rewrite Hdig, Hprof, Hid.
  - intros Hshort Hprof Hint.
    unfold extract_account_id_body. cbv zeta. rewrite Hshort, Hprof.
    by destruct (int_of_str _).
Qed.

End ResolverFacts.

Lemma digit_input_resolution_witness :
  extract_account_id_safe None (fun _ => Raised ClientError)
    " 76561198000000001/" = Returned (Some 39734273).
Proof.
  apply (digit_input_resolution None (fun _ => Raised ClientError)
           " 76561198000000001/"); [discriminate | reflexivity].
Defined.


Lemma resolver_failure_policy_witness :
  extract_account_id_safe (Some "KEY") (fun _ => Raised TimeoutError)
    "https://steamcommunity.com/id/gaben/" = Returned None
  ∧ extract_account_id_safe (Some "KEY")
      (fun _ => Returned (200, Returned (JObj [("response",
                                               JObj [("success", JInt 42)])])))
      "https://steamcommunity.com/id/gaben/" = Returned None
  ∧ extract_account_id_safe None (fun _ => Raised TimeoutError)
      "gaben" = Returned None
  ∧ extract_account_id_safe None (fun _ => Raised TimeoutError)
      "https://steamcommunity.com/profiles/gaben" = Returned None.
Proof.
  split; [|split; [|split]].
  - destruct (resolver_failure_policy (Some "KEY")
                (fun _ => Raised TimeoutError)
                "https://steamcommunity.com/id/gaben/")
      as (_ & _ & Hvanity & _).
    destruct Hvanity as [_ Hcall]; [by split; [|split]|].
    destruct (Hcall "KEY" eq_refl ltac:(discriminate)) as (Hraise & _).
    by apply (Hraise TimeoutError).
  - destruct (resolver_failure_policy (Some "KEY")
                (fun _ => Returned (200, Returned (JObj [("response",
                                               JObj [("success", JInt 42)])])))
                "https://steamcommunity.com/id/gaben/")
      as (_ & _ & Hvanity & _).
    destruct Hvanity as [_ Hcall]; [by split; [|split]|].
    destruct (Hcall "KEY" eq_refl ltac:(discriminate)) as (_ & _ & _ & Hno).
    eapply Hno; [reflexivity|].
    intros (response & success & E1 & E2 & E3).
    cbn in E1. injection E1 as <-. cbn in E2. injection E2 as <-.
    discriminate E3.
  - destruct (resolver_failure_policy None (fun _ => Raised TimeoutError)
                "gaben") as (_ & _ & _ & Hshape & _).
    by apply Hshape.
  - destruct (resolver_failure_policy None (fun _ => Raised TimeoutError)
                "https://steamcommunity.com/profiles/gaben")
      as (_ & _ & _ & _ & Hseg).
    by apply Hseg.
Defined.

(** ** Hero catalog *)

Section HeroesFacts.

(** With nothing cached and no usable local file, a response whose status is
    not 200 makes the loader fall off its end: the caller gets [None]. *)
Lemma loader_non200 cache e status body :
  catalog_truthy cache = false →
  status ≠ 200 →
  get_heroes_data cache {| local_file := Raised e;
                           heroes_api := Returned (status, body) |}
  = (CatNone, cache).
Proof.
  intros Hcache Hst. unfold get_heroes_data. rewrite Hcache. cbn.
  apply Z.eqb_neq in Hst. by rewrite Hst.
Qed.

(** On the other paths out of the loader the caller gets a dictionary or
    the cached value. *)
Lemma loader_other_paths cache w :
  (∀ status body, heroes_api w = Returned (status, body) → status = 200) →
  (get_heroes_data cache w).1 = cache
  ∨ ∃ d, (get_heroes_data cache w).1 = CatDict d.
Proof.
  intros H200. unfold get_heroes_data.
  destruct (catalog_truthy cache); [by left|]. right.
  destruct (local_file w) as [j|e]; cbn.
  - destruct (dict_of_items _ j) as [d|e]; cbn; [by eexists|].
    destruct (heroes_api w) as [[status body]|e'] eqn:E; cbn; [|by eexists].
    rewrite (H200 _ _ eq_refl). cbn.
    destruct (body ≫= _); by eexists.
  - destruct (heroes_api w) as [[status body]|e'] eqn:E; cbn; [|by eexists].
    rewrite (H200 _ _ eq_refl). cbn.
    destruct (body ≫= _); by eexists.
Qed.

(** C9 (the code with nothing cached, the local file missing and the
    remote API answering 404): the loader is to return a dictionary on every
    path, yet here it returns [None], and the formatter's key lookup on the
    result faults. *)
Theorem loader_returns_none_on_404 :
  let w := {| local_file := Raised OSError;
              heroes_api := Returned (404, Returned JNull) |} in
  get_heroes_data (CatDict ∅) w = (CatNone, CatDict ∅)
  ∧ (∀ hero_id, catalog_get CatNone hero_id = Raised AttributeError)
  ∧ ∀ m ms,
      (format_matches_for_display (CatDict ∅) w (m :: ms)).1
      = Raised AttributeError.
Proof.
  cbv zeta. split; [|split].
  - by apply loader_non200.
  - done.
  - intros m ms. unfold format_matches_for_display.
    rewrite loader_non200 by done. reflexivity.
Qed.

End HeroesFacts.

(** ** Score store *)

Section StorageFacts.

Lemma add_to_score_absent db telegram_id points :
  users db !! telegram_id = None →
  add_to_score telegram_id points db = db.
Proof.
  intros Habsent. destruct db as [us fs]. unfold add_to_score. cbn in *.
  f_equal. apply map_eq. intros i. rewrite lookup_alter.
  case_decide; [subst i; by rewrite Habsent | done].
Qed.

(** C10: for a chat identity with no row in [users], [update_score] leaves
    the database as it was and, when no step of the database call raises,
    returns [True]; it returns [False] exactly when a step raises. *)
Theorem update_score_absent_user cfg drv db telegram_id points :
  users db !! telegram_id = None →
  (update_score cfg drv db telegram_id points).2 = db
  ∧ (runs_clean cfg drv →
     update_score cfg drv db telegram_id points = (true, db))
  ∧ ((update_score cfg drv db telegram_id points).1 = false
     ↔ ¬ runs_clean cfg drv).
Proof.
  intros Habsent. unfold update_score, update_score_body, runs_clean.
  unfold score_refused. rewrite Habsent. cbn [from_option]. rewrite andb_false_r.
  rewrite Tauto.if_same, (add_to_score_absent _ _ _ Habsent).
  destruct (get_conn cfg drv), (execute drv), (commit drv), (close drv);
    cbn; intuition congruence.
Qed.

End StorageFacts.

Lemma update_score_absent_user_witness :
  update_score
    {| USE_SQLITE := false; SQLITE_AVAILABLE := false;
       PSYCOPG2_AVAILABLE := true; DATABASE_URL := Some "postgres://db" |}
    {| connect := Returned (); execute := Returned ();
       commit := Returned (); close := Returned () |}
    {| users := {[ 7 := {| account_id := 39734273; score := 15;
                           created_at := 0 |} ]};
       friends := [] |}
    8 10
  = (true,
     {| users := {[ 7 := {| account_id := 39734273; score := 15;
                            created_at := 0 |} ]};
        friends := [] |}).
Proof.
  eapply update_score_absent_user; [reflexivity|].
  by repeat split.
Defined.

(** ** Benchmark analyzer *)

Section AnalyzerFacts.

Lemma select_sample_absent members key :
  assoc key members = None →
  select_sample (JObj members) key = Returned None.
Proof.
  intros Habsent. unfold select_sample. cbn. rewrite Habsent.
  by rewrite bool_decide_eq_false_2 by (by intros [? ?]).
Qed.

Lemma select_sample_list members key samples :
  assoc key members = Some (JArr samples) →
  select_sample (JObj members) key =
  if Z.of_nat (length samples) >=? 6 then
    match samples !! Z.to_nat (Z.min 4 (Z.of_nat (length samples) - 1)) with
    | Some x => Returned (Some (Z.min 4 (Z.of_nat (length samples) - 1), x))
    | None => Raised IndexError
    end
  else Returned None.
Proof.
  intros Hkey. unfold select_sample. cbn. rewrite Hkey.
  rewrite bool_decide_eq_true_2 by eauto. cbn.
  destruct samples as [|x samples]; [done|]. cbn [truthy].
  cbn [len mbind outcome_bind bind].
  destruct (Z.of_nat (length (x :: samples)) >=? 6); [|done].
  cbn [index]. by destruct (_ !! _).
Qed.

Lemma analysis_blocks_spec bench keys bs :
  analysis_blocks bench keys = Returned bs →
  ∀ b, b ∈ bs ↔ ∃ k, k ∈ keys ∧ metric_block bench k = Returned (Some b).
Proof.
  revert bs. induction keys as [|k keys IH]; intros bs Hrun b.
  - cbn in Hrun. injection Hrun as <-. split.
    + by intros ?%elem_of_nil.
    + by intros (? & ?%elem_of_nil & _).
  - cbn in Hrun.
    destruct (metric_block bench k) as [ob|] eqn:Ek; [|done]. cbn in Hrun.
    destruct (analysis_blocks bench keys) as [bs'|] eqn:Erest; [|done].
    cbn in Hrun. injection Hrun as <-.
    rewrite elem_of_app, (IH bs' eq_refl b). split.
    + intros [Hb | (k' & Hk' & Hrun')].
      * exists k. split; [left|].
        destruct ob as [b'|]; cbn in Hb; [|by apply elem_of_nil in Hb].
        apply list_elem_of_singleton in Hb as ->. done.
      * exists k'. split; [by right | done].
    + intros (k' & [-> | Hin]%elem_of_cons & Hrun').
      * left. rewrite Ek in Hrun'. injection Hrun' as ->. cbn.
        by apply list_elem_of_singleton.
      * right. by exists k'.
Qed.

Lemma paragraph_key k i x b :
  paragraph k i x = Returned b → block_key b = k ∧ block_index b = i.
Proof.
  unfold paragraph.
  destruct (get x "percentile" _) as [p|]; cbn; [|done].
  destruct (get x "value" _) as [v|]; cbn; [|done].
  destruct (comparand p); cbn; [|done].
  destruct (format_1f v); cbn; [|done].
  destruct (times_100 p); cbn; [|done].
  destruct (format_1f _); cbn; [|done].
  by intros [= <-].
Qed.

Lemma metric_block_key bench k b :
  metric_block bench k = Returned (Some b) →
  block_key b = k
  ∧ ∃ x, select_sample bench k = Returned (Some (block_index b, x)).
Proof.
  unfold metric_block.
  destruct (select_sample bench k) as [[[i x]|]|]; cbn; [|done..].
  destruct (paragraph k i x) as [b'|] eqn:Ep; cbn; [|done].
  intros [= <-]. apply paragraph_key in Ep as [-> ->]. eauto.
Qed.

Lemma analysis_blocks_returns bench keys :
  (∃ bs, analysis_blocks bench keys = Returned bs)
  ↔ Forall (fun k => raises (metric_block bench k) = false) keys.
Proof.
  induction keys as [|k keys IH]; cbn.
  - split; [constructor | by eexists].
  - rewrite Forall_cons, <- IH.
    destruct (metric_block bench k) as [b|]; cbn.
    + destruct (analysis_blocks bench keys) as [bs|]; cbn.
      * split; [eauto | by eexists].
      * split; [by intros [? ?] | by intros (_ & ? & ?)].
    + split; [by intros [? ?] | by intros (? & _)].
Qed.

Lemma analysis_blocks_skip bench key keys :
  metric_block bench key = Returned None →
  analysis_blocks bench keys
  = analysis_blocks bench (filter (λ k, k ≠ key) keys).
Proof.
  intros Hskip. induction keys as [|k keys IH]; [done|].
  destruct (decide (k = key)) as [->|Hk].
  - rewrite filter_cons_False by (by intros ?). rewrite <- IH.
    cbn. rewrite Hskip. cbn. by destruct (analysis_blocks bench keys).
  - rewrite filter_cons_True by done. cbn. by rewrite IH.
Qed.

Lemma analyze_document_refused members :
  members = [] ∨ is_Some (assoc "error" members) →
  analyze_document (JObj members) = Returned NoAnalysis.
Proof.
  intros [-> | Herror]; [done|].
  unfold analyze_document. destruct members as [|m members].
  - by destruct Herror.
  - cbn [truthy negb py_in]. by rewrite bool_decide_eq_true_2.
Qed.

Lemma analyze_document_open members :
  members ≠ [] →
  assoc "error" members = None →
  analyze_document (JObj members)
  = (paragraphs ← analysis_blocks (JObj members) metrics;
     mret (Analysis paragraphs (text_parts paragraphs >? 10))).
Proof.
  intros Hmembers Herror. unfold analyze_document.
  destruct members as [|m members]; [done|].
  cbn [truthy negb py_in]. rewrite Herror.
  by rewrite bool_decide_eq_false_2 by (by intros [? ?]).
Qed.

(** C6, amended: in a benchmark document that is not empty and has no key
    "error", for a recognized metric key whose sample list has at least 6
    entries the analyzer reads the sample at index min(4, length - 1), which
    is 4, and writes the metric's paragraph from that sample: when no
    recognized metric raises, the answer holds exactly one paragraph of this
    key, the one of sample 4.  A recognized metric that is absent, or whose
    list has fewer than 6 entries, gives no paragraph and no error: the
    analysis is the one of the other metrics, and no paragraph of the answer
    has this key. *)
Theorem analyzer_sample_selection members key :
  members ≠ [] →
  assoc "error" members = None →
  key ∈ metrics →
  (∀ samples, assoc key members = Some (JArr samples) →
     (6 <= length samples)%nat →
     Z.min 4 (Z.of_nat (length samples) - 1) = 4
     ∧ ∃ x, samples !! 4%nat = Some x
        ∧ select_sample (JObj members) key = Returned (Some (4, x))
        ∧ metric_block (JObj members) key
          = (b ← paragraph key 4 x; mret (Some b))
        ∧ ((∀ k, k ∈ metrics →
              raises (metric_block (JObj members) k) = false) →
           ∃ bs b,
             analyze_document (JObj members)
             = Returned (Analysis bs (text_parts bs >? 10))
             ∧ paragraph key 4 x = Returned b
             ∧ b ∈ bs
             ∧ ∀ b', b' ∈ bs → block_key b' = key → b' = b))
  ∧ (assoc key members = None
     ∨ (∃ samples, assoc key members = Some (JArr samples)
                   ∧ (length samples < 6)%nat) →
     metric_block (JObj members) key = Returned None
     ∧ analysis_blocks (JObj members) metrics
       = analysis_blocks (JObj members) (filter (λ k, k ≠ key) metrics)
     ∧ ∀ bs advice,
         analyze_document (JObj members) = Returned (Analysis bs advice) →
         ∀ b, b ∈ bs → block_key b ≠ key).
Proof.
  intros Hmembers Herror Hkey. split.
  - intros samples Hsamples Hlen.
    assert (Z.min 4 (Z.of_nat (length samples) - 1) = 4) as Hmin by lia.
    split; [done|].
    destruct (lookup_lt_is_Some_2 samples 4%nat) as [x Hx]; [lia|].
    exists x. split; [done|].
    assert (select_sample (JObj members) key = Returned (Some (4, x)))
      as Hsel.
    { rewrite (select_sample_list _ _ _ Hsamples), Hmin.
      replace (Z.of_nat (length samples) >=? 6) with true
        by (symmetry; apply Z.geb_le; lia).
      change (Z.to_nat 4) with 4%nat. by rewrite Hx. }
    split; [done|].
    assert (metric_block (JObj members) key
            = (b ← paragraph key 4 x; mret (Some b))) as Hblock
      by (unfold metric_block; by rewrite Hsel).
    split; [done|].
    intros Hquiet.
    destruct (proj2 (analysis_blocks_returns (JObj members) metrics))
      as [bs Hrun]; [by apply Forall_forall|].
    specialize (Hquiet key Hkey). rewrite Hblock in Hquiet.
    destruct (paragraph key 4 x) as [b|] eqn:Hb; [|done].
    change (metric_block (JObj members) key = Returned (Some b)) in Hblock.
    exists bs, b.
    split; [by rewrite analyze_document_open, Hrun|].
    split; [done|]. split.
    + apply (analysis_blocks_spec _ _ _ Hrun). eauto.
    + intros b' Hin Hk.
      apply (analysis_blocks_spec _ _ _ Hrun) in Hin as (k & _ & Hb').
      pose proof (metric_block_key _ _ _ Hb') as [Hk' _].
      assert (k = key) as -> by congruence.
      rewrite Hblock in Hb'. by injection Hb'.
  - intros Hskip.
    assert (select_sample (JObj members) key = Returned None) as Hsel.
    { destruct Hskip as [Habsent | (samples & Hsamples & Hlen)].
      - by apply select_sample_absent.
      - rewrite (select_sample_list _ _ _ Hsamples).
        replace (Z.of_nat (length samples) >=? 6) with false; [done|].
        symmetry. rewrite Z.geb_leb. apply Z.leb_gt. lia. }
    assert (metric_block (JObj members) key = Returned None) as Hnone
      by (unfold metric_block; by rewrite Hsel).
    split; [done|]. split; [by apply analysis_blocks_skip|].
    intros bs advice Hrun b Hb Hk.
    rewrite analyze_document_open in Hrun by done.
    destruct (analysis_blocks (JObj members) metrics) as [bs'|] eqn:Hbs;
      [|done].
    cbn in Hrun. injection Hrun as -> _.
    apply (analysis_blocks_spec _ _ _ Hbs) in Hb as (k & _ & Hblock).
    apply metric_block_key in Hblock as (Hk' & x & Hsel').
    assert (k = key) as -> by congruence. by rewrite Hsel in Hsel'.
Qed.

End AnalyzerFacts.

(** A benchmark document with a key "error" is answered with the "no data"
    message before any metric is read: the recognized metric "gold_per_min"
    has 6 samples, the loop over the metrics would write its paragraph from
    sample 4, and the answer holds no paragraph. *)
Lemma error_document_not_analysed :
  let sample (i : Z) :=
    JObj [("percentile", JFloat (float_of_ratio (i + 5) 10));
          ("value", JInt (100 * (i + 1)))] in
  let six := [sample 0; sample 1; sample 2; sample 3; sample 4; sample 5] in
  let members := [("error", JStr "rate limit exceeded");
                  ("gold_per_min", JArr six)] in
  bool_decide ("gold_per_min" ∈ metrics) = true
  ∧ assoc "gold_per_min" members = Some (JArr six)
  ∧ length six = 6%nat
  ∧ analysis_blocks (JObj members) metrics
    = Returned [{| block_key := "gold_per_min"; block_index := 4;
                   block_rating := Excellent; block_value := "500.0";
                   block_percent := "90.0" |}]
  ∧ analyze_document (JObj members) = Returned NoAnalysis.
Proof.
  cbv zeta. split; [by vm_compute|]. split; [reflexivity|].
  split; [reflexivity|]. split; by vm_compute.
Qed.

Lemma analyzer_sample_selection_witness :
  let sample (i : Z) :=
    JObj [("percentile", JFloat (float_of_ratio (i + 5) 10));
          ("value", JInt (100 * (i + 1)))] in
  let six := [sample 0; sample 1; sample 2; sample 3; sample 4; sample 5] in
  let members := [("gold_per_min", JArr six);
                  ("xp_per_min", JArr [sample 0; sample 1; sample 2])] in
  (∃ bs b,
     analyze_document (JObj members)
     = Returned (Analysis bs (text_parts bs >? 10))
     ∧ paragraph "gold_per_min" 4 (sample 4) = Returned b
     ∧ b ∈ bs
     ∧ block_value b = "500.0")
  ∧ metric_block (JObj members) "xp_per_min" = Returned None
  ∧ metric_block (JObj members) "tower_damage" = Returned None.
Proof.
  cbv zeta.
  set (sample := fun i : Z =>
         JObj [("percentile", JFloat (float_of_ratio (i + 5) 10));
               ("value", JInt (100 * (i + 1)))]).
  set (six := [sample 0; sample 1; sample 2; sample 3; sample 4; sample 5]).
  set (members := [("gold_per_min", JArr six);
                   ("xp_per_min", JArr [sample 0; sample 1; sample 2])]).
  assert (members ≠ []) as Hmembers by done.
  assert (assoc "error" members = None) as Herror by reflexivity.
  assert (∀ k, bool_decide (k ∈ metrics) = true → k ∈ metrics) as Hin
    by (intros k; apply bool_decide_eq_true_1).
  split; [|split].
  - destruct (analyzer_sample_selection members "gold_per_min"
                Hmembers Herror (Hin "gold_per_min" ltac:(by vm_compute)))
      as [Hsel _].
    destruct (Hsel six eq_refl) as (_ & x & Hx & _ & _ & Hrun);
      [cbn; lia|].
    injection Hx as <-.
    assert (∀ k, k ∈ metrics →
              raises (metric_block (JObj members) k) = false) as Hquiet.
    { apply Forall_forall. unfold metrics.
      repeat (apply Forall_cons_2; [by vm_compute|]).
      apply Forall_nil_2. }
    destruct (Hrun Hquiet) as (bs & b & Hdoc & Hb & Hbs & _).
    exists bs, b. split; [done|]. split; [done|]. split; [done|].
    vm_compute in Hb. by injection Hb as <-.
  - destruct (analyzer_sample_selection members "xp_per_min"
                Hmembers Herror (Hin "xp_per_min" ltac:(by vm_compute)))
      as (_ & Hskip & _); [|done].
    right. eexists. split; [reflexivity | cbn; lia].
  - destruct (analyzer_sample_selection members "tower_damage"
                Hmembers Herror (Hin "tower_damage" ltac:(by vm_compute)))
      as (_ & Hskip & _); [|done].
    by left.
Defined.

(** ** Match formatter *)

Section FormatterFacts.

Lemma win_flag (slot : Z) (rw : bool) :
  ((slot <? 128) && rw) || (negb (slot <? 128) && negb rw) = true
  ↔ (slot < 128 ∧ rw = true) ∨ (128 <= slot ∧ rw = false).
Proof.
  destruct (Z.ltb_spec slot 128), rw; cbn; split; intros; try done;
    try (left; split; [lia | done]); try (right; split; [lia | done]);
    intuition (congruence || lia).
Qed.

Lemma roles_update (lane : Z) (rs : list string) :
  (if lane =? 1 then rs ++ ["Safe Lane"]
   else if lane =? 2 then rs ++ ["Mid Lane"]
   else if lane =? 3 then rs ++ ["Off Lane"]
   else if (lane =? 4) || (lane =? 5) then rs ++ ["Support"]
   else rs)
  = rs ++ option_list (role_name lane).
Proof.
  destruct lane as [|p|p]; cbn; rewrite ?app_nil_r; try done.
  destruct p as [[[?|?|]|[?|?|]|]|[[?|?|]|[?|?|]|]|];
    cbn; rewrite ?app_nil_r; done.
Qed.

Lemma tallied_cons m ms :
  tallied (m :: ms)
  = option_list (role_name (default 0 (lane_role m))) ++ tallied ms.
Proof. unfold tallied. cbn. by destruct (role_name _). Qed.

Lemma count_wins_cons m ms :
  count_wins (m :: ms) = (if decide (won m) then 1 else 0) + count_wins ms.
Proof.
  unfold count_wins. rewrite filter_cons.
  destruct (decide (won m)); cbn [length]; lia.
Qed.

Lemma count_wins_bounds ms : 0 <= count_wins ms <= Z.of_nat (length ms).
Proof.
  unfold count_wins. pose proof (length_filter won ms). lia.
Qed.

(** The loop over a dictionary catalog returns, the KDA quotient being
    total here ([truediv]); it adds the wins and the roles of the records it
    visits and one line per record. *)
Lemma loop_dict d ms : ∀ i st,
  ∃ ls,
    loop (CatDict d) i ms st
    = Returned {| wins := wins st + count_wins ms;
                  roles := roles st ++ tallied ms;
                  lines := lines st ++ ls |}
    ∧ Forall2 (fun l m => line_win l = true ↔ won m) ls ms
    ∧ ∀ (k : nat) l, ls !! k = Some l → line_index l = i + Z.of_nat k.
Proof.
  induction ms as [|m ms IH]; intros i st.
  - exists []. cbn. rewrite !app_nil_r, Z.add_0_r.
    split; [by destruct st|]. split; [constructor | done].
  - cbn [loop]. unfold loop_body at 1. cbn [catalog_get mbind outcome_bind bind mret outcome_ret].
    rewrite roles_update.
    match goal with
    | |- context [loop _ _ ms ?st'] => destruct (IH (i + 1) st') as (ls & Hrun & Hwin & Hidx)
    end.
    eexists (_ :: ls). rewrite Hrun. cbn [wins roles lines].
    split; [|split].
    + f_equal. f_equal.
      * rewrite count_wins_cons.
        destruct (decide (won m)) as [Hw|Hw];
          unfold won in Hw; rewrite <- win_flag in Hw; destruct (_ || _);
          (done || lia).
      * by rewrite tallied_cons, app_assoc.
      * by rewrite <- app_assoc.
    + constructor; [|done]. cbn. unfold won. apply win_flag.
    + intros [|k] l; cbn.
      * intros [= <-]. cbn. lia.
      * intros Hk. rewrite (Hidx _ _ Hk). lia.
Qed.

(** *** The counter and its most common item *)

Abbreviation add_all := (foldl (fun c k => counter_add k c)).

Lemma occurrences_cons k x xs :
  occurrences k (x :: xs)
  = (if decide (x = k) then 1 else 0) + occurrences k xs.
Proof.
  unfold occurrences. rewrite filter_cons.
  destruct (decide (x = k)); cbn [length]; lia.
Qed.

Lemma occurrences_nonneg k xs : 0 <= occurrences k xs.
Proof. unfold occurrences. lia. Qed.

Lemma occurrences_absent k xs : k ∉ xs → occurrences k xs = 0.
Proof.
  induction xs as [|x xs IH]; [done|].
  intros [Hne Hnot]%not_elem_of_cons. rewrite occurrences_cons, IH by done.
  by destruct (decide (x = k)) as [->|].
Qed.

Lemma counter_get_add k k' c :
  counter_get k' (counter_add k c)
  = counter_get k' c + (if decide (k = k') then 1 else 0).
Proof.
  induction c as [|[k0 n] c IH]; cbn.
  - destruct (String.eqb_spec k' k), (decide (k = k')); congruence || lia.
  - destruct (String.eqb_spec k k0) as [->|Hne]; cbn.
    + destruct (String.eqb_spec k' k0), (decide (k0 = k'));
        congruence || lia.
    + destruct (String.eqb_spec k' k0) as [->|]; [|done].
      destruct (decide (k = k0)); [done | lia].
Qed.

Lemma counter_get_add_all k xs : ∀ c,
  counter_get k (add_all c xs) = counter_get k c + occurrences k xs.
Proof.
  induction xs as [|x xs IH]; intros c; cbn.
  - unfold occurrences. cbn. lia.
  - rewrite IH, counter_get_add, occurrences_cons. lia.
Qed.

Lemma keys_add k c :
  (counter_add k c).*1 = if decide (k ∈ c.*1) then c.*1 else c.*1 ++ [k].
Proof.
  induction c as [|[k0 n] c IH]; cbn.
  - by rewrite decide_False by apply not_elem_of_nil.
  - destruct (String.eqb_spec k k0) as [->|Hne]; cbn.
    + by rewrite decide_True by left.
    + rewrite IH. destruct (decide (k ∈ c.*1)) as [Hin|Hnot].
      * by rewrite decide_True by (by right).
      * rewrite decide_False; [done|].
        by intros [?|?]%elem_of_cons.
Qed.

Lemma keys_add_all xs : ∀ c, ∃ extra, (add_all c xs).*1 = c.*1 ++ extra.
Proof.
  induction xs as [|x xs IH]; intros c; cbn.
  - exists []. by rewrite app_nil_r.
  - destruct (IH (counter_add x c)) as [extra ->]. rewrite keys_add.
    destruct (decide _); [by eexists|].
    exists (x :: extra). by rewrite <- app_assoc.
Qed.

Lemma keys_add_all_elem k xs : ∀ c,
  k ∈ (add_all c xs).*1 ↔ k ∈ c.*1 ∨ k ∈ xs.
Proof.
  induction xs as [|x xs IH]; intros c; cbn.
  - rewrite elem_of_nil. tauto.
  - rewrite IH, keys_add, elem_of_cons.
    destruct (decide (x ∈ c.*1)) as [Hin|Hnot].
    + split; [tauto|]. intros [?|[->|?]]; tauto.
    + rewrite elem_of_app, list_elem_of_singleton. tauto.
Qed.

Lemma keys_add_all_NoDup xs : ∀ c, NoDup c.*1 → NoDup (add_all c xs).*1.
Proof.
  induction xs as [|x xs IH]; intros c Hc; cbn; [done|].
  apply IH. rewrite keys_add. destruct (decide _) as [|Hnot]; [done|].
  apply NoDup_app. split; [done|]. split.
  - by intros y Hy ->%list_elem_of_singleton.
  - apply NoDup_singleton.
Qed.

Lemma counter_get_elem k n c :
  NoDup c.*1 → (k, n) ∈ c → counter_get k c = n.
Proof.
  induction c as [|[k0 n0] c IH]; cbn.
  - by intros _ ?%elem_of_nil.
  - intros [Hnot Hc]%NoDup_cons [[= -> ->] | Hin]%elem_of_cons.
    + by rewrite String.eqb_refl.
    + destruct (String.eqb_spec k k0) as [->|]; [|by apply IH].
      destruct Hnot. apply list_elem_of_fmap. by exists (k0, n).
Qed.

Lemma split_unique {A} (x : A) (a b a' b' : list A) :
  NoDup (a ++ x :: b) → a ++ x :: b = a' ++ x :: b' → a = a'.
Proof.
  revert a'. induction a as [|y a IH]; intros a' Hnd Heq.
  - destruct a' as [|y' a']; [done|]. cbn in *. injection Heq as <- ->.
    apply NoDup_cons in Hnd as [Hnot _]. destruct Hnot.
    apply elem_of_app. right. by left.
  - destruct a' as [|y' a']; cbn in *.
    + injection Heq as -> <-. apply NoDup_cons in Hnd as [Hnot _].
      destruct Hnot. apply elem_of_app. right. by left.
    + injection Heq as <- Heq. apply NoDup_cons in Hnd as [_ Hnd].
      f_equal. by apply IH.
Qed.

(** [max] by count keeps the first of the items with the largest count. *)
Lemma most_common_1_spec x rest :
  ∃ best before after,
    most_common_1 (x :: rest) = [best]
    ∧ x :: rest = before ++ best :: after
    ∧ (∀ y, y ∈ before → y.2 < best.2)
    ∧ (∀ y, y ∈ after → y.2 <= best.2).
Proof.
  unfold most_common_1.
  induction rest as [|z rest IH] using rev_ind.
  - exists x, [], []. cbn. repeat split; by intros ? ?%elem_of_nil.
  - destruct IH as (best & before & after & [= Hbest] & Hsplit & Hlt & Hle).
    rewrite foldl_app. cbn [foldl]. rewrite Hbest.
    destruct (Z.ltb_spec best.2 z.2) as [Hz|Hz].
    + exists z, (x :: rest), []. split; [done|].
      split; [done|]. split; [|by intros ? ?%elem_of_nil].
      intros y Hy. rewrite Hsplit in Hy.
      apply elem_of_app in Hy as [Hy | [-> | Hy]%elem_of_cons].
      * specialize (Hlt _ Hy). lia.
      * done.
      * specialize (Hle _ Hy). lia.
    + exists best, before, (after ++ [z]). split; [done|].
      split; [by rewrite app_comm_cons, Hsplit, <- app_assoc|].
      split; [done|].
      intros y [Hy | ->%list_elem_of_singleton]%elem_of_app; [auto | lia].
Qed.

(** The item [most_common(1)] yields for a non-empty list is its first
    mode. *)
Lemma most_common_first_mode x xs :
  ∃ r c, most_common_1 (Counter (x :: xs)) = [(r, c)]
         ∧ first_mode r c (x :: xs).
Proof.
  set (roles := x :: xs).
  assert (NoDup (Counter roles).*1) as Hnd
    by (apply keys_add_all_NoDup; constructor).
  assert (∀ k n, (k, n) ∈ Counter roles → n = occurrences k roles) as Hcount.
  { intros k n Hin. rewrite <- (counter_get_elem _ _ _ Hnd Hin).
    unfold Counter. by rewrite counter_get_add_all. }
  assert (∀ k, k ∈ roles → (k, occurrences k roles) ∈ Counter roles) as Hkey.
  { intros k Hk.
    assert (k ∈ (Counter roles).*1) as Hin
      by (apply keys_add_all_elem; by right).
    apply list_elem_of_fmap in Hin as ([k' n] & -> & Hin). cbn.
    by rewrite <- (Hcount _ _ Hin). }
  destruct (Counter roles) as [|y ys] eqn:EC.
  { specialize (Hkey x ltac:(left)). by apply elem_of_nil in Hkey. }
  destruct (most_common_1_spec y ys)
    as ([r c] & before & after & Hbest & Hsplit & Hlt & Hle).
  exists r, c. split; [done|].
  assert ((r, c) ∈ y :: ys) as Hin
    by (rewrite Hsplit; apply elem_of_app; right; left).
  assert (r ∈ roles) as Hr.
  { assert (r ∈ (Counter roles).*1) as Hk.
    { rewrite EC. apply list_elem_of_fmap. by exists (r, c). }
    apply keys_add_all_elem in Hk as [Hk|Hk]; [|done].
    by apply elem_of_nil in Hk. }
  split; [by apply Hcount|]. split.
  - intros r'. destruct (decide (r' ∈ roles)) as [Hr'|Hr'].
    + specialize (Hkey _ Hr'). rewrite Hsplit in Hkey.
      apply elem_of_app in Hkey as [Hy | [[= <- <-] | Hy]%elem_of_cons].
      * specialize (Hlt _ Hy). cbn in Hlt. lia.
      * lia.
      * by specialize (Hle _ Hy).
    + rewrite occurrences_absent by done.
      rewrite (Hcount _ _ Hin). apply occurrences_nonneg.
  - apply list_elem_of_split_l in Hr as (pre & post & Hroles & Hnot).
    exists pre, post. split; [done|]. split; [done|].
    intros r' Hr'.
    (* the keys met before [r] are the keys of the counter of [pre] *)
    assert (∃ extra, (Counter roles).*1 = (Counter pre).*1 ++ r :: extra)
      as [extra Hkeys].
    { rewrite Hroles. unfold Counter. rewrite foldl_app. cbn [foldl].
      destruct (keys_add_all post (counter_add r (add_all [] pre)))
        as [extra ->].
      rewrite keys_add, decide_False.
      - exists extra. by rewrite <- app_assoc.
      - intros [Hk|Hk]%keys_add_all_elem; [by apply elem_of_nil in Hk|done]. }
    rewrite EC, Hsplit, fmap_app, fmap_cons in Hkeys. cbn in Hkeys.
    apply split_unique in Hkeys;
      [|by replace (before.*1 ++ r :: after.*1) with ((y :: ys).*1)
          by (by rewrite Hsplit, fmap_app)].
    assert (r' ∈ before.*1) as Hbefore.
    { rewrite Hkeys. apply keys_add_all_elem. by right. }
    apply list_elem_of_fmap in Hbefore as ([k n] & -> & Hkn). cbn.
    specialize (Hlt _ Hkn). cbn in Hlt.
    rewrite <- (Hcount k n); [done|].
    rewrite Hsplit. apply elem_of_app. by left.
Qed.

(** *** The summary *)

(** What [summarise] returns when the catalog is a dictionary: the total is
    the length of the whole list, the wins, roles and lines are those of its
    first 10 records. *)
Lemma summarise_dict d m ms :
  let matches := m :: ms in
  let shown := take 10 matches in
  let total := Z.of_nat (length matches) in
  ∃ main_role ls,
    summarise (CatDict d) matches
    = Returned (Summary
        {| h_total := total;
           h_winrate := format_fixed 1 (percentage (count_wins shown) total);
           h_wins := count_wins shown;
           h_losses := total - count_wins shown;
           h_main_role := main_role |} ls)
    ∧ Forall2 (fun l r => line_win l = true ↔ won r) ls shown
    ∧ (∀ (k : nat) l, ls !! k = Some l → line_index l = 1 + Z.of_nat k)
    ∧ (tallied shown = [] → main_role = None)
    ∧ (tallied shown ≠ [] →
       ∃ r c, main_role = Some (r, c, Z.of_nat (length (tallied shown)))
              ∧ first_mode r c (tallied shown)).
Proof.
  intros matches shown total. unfold summarise.
  destruct (loop_dict d shown 1 {| wins := 0; roles := []; lines := [] |})
    as (ls & Hrun & Hwin & Hidx).
  fold matches shown total. rewrite Hrun.
  cbn [mbind outcome_bind bind wins roles lines app].
  rewrite Z.add_0_l.
  assert ((total >? 0) = true) as ->
    by (apply Z.gtb_lt; subst total matches; cbn [length]; lia).
  destruct (tallied shown) as [|x xs] eqn:Eroles.
  - exists None, ls. cbn. split; [done|]. split; [done|]. split; [done|].
    split; [done|]. by intros [].
  - destruct (most_common_first_mode x xs) as (r & c & -> & Hmode).
    exists (Some (r, c, Z.of_nat (length (x :: xs)))), ls. cbn.
    split; [done|]. split; [done|]. split; [done|].
    split; [done|]. intros _. by exists r, c.
Qed.

(** C1 (evaluation at eleven won matches): the wins are counted over the
    ten records shown, the total over all eleven, so the summary reads
    90.9% (10W - 1L) and not 100.0% (10W - 0L). *)
Theorem winrate_over_eleven_records d :
  ∃ ls,
    summarise (CatDict d) (replicate 11 (bare_record 0 true))
    = Returned (Summary {| h_total := 11; h_winrate := "90.9";
                           h_wins := 10; h_losses := 1;
                           h_main_role := None |} ls)
    ∧ length ls = 10%nat.
Proof.
  destruct (summarise_dict d (bare_record 0 true)
              (replicate 10 (bare_record 0 true)))
    as (main_role & ls & Hrun & Hwin & _ & Hnone & _).
  exists ls. split.
  - change (replicate 11 (bare_record 0 true))
      with (bare_record 0 true :: replicate 10 (bare_record 0 true)).
    rewrite Hrun, (Hnone eq_refl). reflexivity.
  - by apply Forall2_length in Hwin.
Qed.



End FormatterFacts.


(** ** The persistence calls together *)

Section PersistenceFacts.

Variable cfg : config.
Variable drv : driver.

Lemma write_call_clean db statement updated :
  runs_clean cfg drv → statement db = Returned updated →
  write_call cfg drv db statement = (updated, Returned ()).
Proof.
  intros (Hc & He & Hm & Hl) Hst. unfold write_call. rewrite Hst.
  destruct (get_conn cfg drv) as [[]|], (execute drv) as [[]|],
    (commit drv) as [[]|], (close drv) as [[]|]; done.
Qed.

Lemma write_call_pure db (f : database -> database) :
  runs_clean cfg drv →
  write_call cfg drv db (fun db => mret (f db)) = (f db, Returned ()).
Proof. intros Hclean. by apply write_call_clean. Qed.

Lemma read_call_clean {A} (fetched : A) :
  runs_clean cfg drv → read_call cfg drv fetched = Returned fetched.
Proof.
  intros (Hc & He & Hm & Hl). unfold read_call.
  destruct (get_conn cfg drv) as [[]|], (execute drv) as [[]|],
    (close drv) as [[]|]; done.
Qed.

Lemma write_call_no_connection db statement e :
  get_conn cfg drv = Raised e →
  write_call cfg drv db statement = (db, Raised e).
Proof. intros Hc. unfold write_call. by rewrite Hc. Qed.



(** X3: binding the same account a second time, at a later reading [now2]
    of the database clock, leaves under PostgreSQL the database of the first
    binding, whatever the two readings; under SQLite it leaves the database
    of a single binding made at [now2], since the replaced row is stamped
    afresh. *)
Theorem bind_user_twice now1 now2 db telegram_id bound_account :
  runs_clean cfg drv →
  (bind_user cfg drv now2
     (bind_user cfg drv now1 db telegram_id bound_account).2
     telegram_id bound_account).2
  = (bind_user cfg drv (if USE_SQLITE cfg then now2 else now1) db
       telegram_id bound_account).2.
Proof.
  intros Hclean. unfold bind_user.
  rewrite !write_call_pure by done. cbn [fst snd].
  destruct (USE_SQLITE cfg); unfold insert_or_replace, insert_or_update;
    cbn [users friends].
  - by rewrite insert_insert_eq.
  - destruct (users db !! telegram_id) as [row|] eqn:E;
      rewrite lookup_insert_eq; cbn; by rewrite insert_insert_eq.
Qed.

Lemma score_accepted uses_sqlite db telegram_id row points :
  users db !! telegram_id = Some row →
  integer_range (score row + points) = true →
  score_refused uses_sqlite telegram_id points db = false.
Proof.
  intros Hrow Hrange. unfold score_refused. rewrite Hrow. cbn.
  rewrite Hrange. apply andb_false_r.
Qed.

(** X4: for a user whose row holds a score within the 32 bits of the column
    [INTEGER], and as long as the new score stays within them,
    [update_score] adds the points to the score and touches nothing else: no
    row appears or disappears, the other rows and the friends are as they
    were, and two updates add up.  Under PostgreSQL an update that would
    take the score out of that range is refused: the answer is [False] and
    the database is as it was. *)
Theorem update_score_adds db telegram_id row p q :
  runs_clean cfg drv →
  users db !! telegram_id = Some row →
  integer_range (score row) = true →
  integer_range (score row + p) = true →
  integer_range (score row + p + q) = true →
  let once := update_score cfg drv db telegram_id p in
  let twice := update_score cfg drv once.2 telegram_id q in
  once.1 = true
  ∧ users once.2 !! telegram_id
    = Some {| account_id := account_id row; score := score row + p;
              created_at := created_at row |}
  ∧ (∀ other, other ≠ telegram_id →
       users once.2 !! other = users db !! other)
  ∧ dom (users once.2) = dom (users db)
  ∧ friends once.2 = friends db
  ∧ twice = update_score cfg drv db telegram_id (p + q)
  ∧ ∀ big, USE_SQLITE cfg = false →
      integer_range (score row + big) = false →
      update_score cfg drv db telegram_id big = (false, db).
Proof.
  intros (Hc & He & Hm & Hl) Hrow _ Hp Hpq. cbv zeta.
  assert (∀ db' points,
            score_refused (USE_SQLITE cfg) telegram_id points db' = false →
            update_score cfg drv db' telegram_id points
            = (true, add_to_score telegram_id points db')) as Hrun.
  { intros db' points Hok. unfold update_score, update_score_body.
    rewrite Hok, Tauto.if_same.
    by destruct (get_conn cfg drv) as [[]|], (execute drv) as [[]|],
      (commit drv) as [[]|], (close drv) as [[]|]. }
  rewrite (Hrun db p) by (by eapply score_accepted).
  cbn [fst snd].
  assert (users (add_to_score telegram_id p db) !! telegram_id
          = Some {| account_id := account_id row; score := score row + p;
                    created_at := created_at row |}) as Hrow'.
  { unfold add_to_score. cbn [users]. by rewrite lookup_alter_eq, Hrow. }
  rewrite (Hrun _ q) by (by eapply score_accepted).
  rewrite (Hrun db (p + q))
    by (eapply score_accepted; [done | by rewrite Z.add_assoc]).
  unfold add_to_score. cbn [users friends].
  split; [done|]. split; [by rewrite lookup_alter_eq, Hrow|].
  split; [intros other Hne; by rewrite lookup_alter_ne|].
  split; [apply dom_alter_L|]. split; [done|]. split.
  - f_equal. f_equal. rewrite alter_alter_eq. apply alter_ext.
    intros [a s t] _. cbn. f_equal. lia.
  - intros big Hpg Hbig. unfold update_score, update_score_body.
    unfold score_refused. rewrite Hpg, Hrow. cbn [from_option negb andb].
    rewrite Hbig. cbn [negb].
    by destruct (get_conn cfg drv) as [[]|], (execute drv) as [[]|].
Qed.

(** X5: without SQLite in use, and with the PostgreSQL driver missing or no
    database URL configured, no connection can be had: every persistence
    call gives its failure value ([False] or [None]) and the database is as
    it was. *)
Theorem no_database_degrades now db telegram_id x name :
  USE_SQLITE cfg = false →
  PSYCOPG2_AVAILABLE cfg = false ∨ DATABASE_URL cfg = None →
  bind_user cfg drv now db telegram_id x = (false, db)
  ∧ update_score cfg drv db telegram_id x = (false, db)
  ∧ add_friend cfg drv db telegram_id x name = (false, db)
  ∧ get_account_id cfg drv db telegram_id = None
  ∧ get_user_stats cfg drv db telegram_id = None.
Proof.
  intros Hlite Hpg.
  assert (get_conn cfg drv = Raised GenericException) as Hc.
  { unfold get_conn. rewrite Hlite. cbn.
    destruct Hpg as [-> | ->]; [done | by rewrite andb_false_r]. }
  unfold bind_user, add_friend, update_score, update_score_body,
    get_account_id, get_user_stats, read_call.
  rewrite !(write_call_no_connection _ _ _ Hc), Hc. done.
Qed.


(** X7: [get_user_stats] answers for exactly the users that have a row, and
    then with the stored score and the number of the user's friend rows. *)
Theorem user_stats_reads_row db telegram_id :
  runs_clean cfg drv →
  match get_user_stats cfg drv db telegram_id with
  | Some stats =>
      ∃ row, users db !! telegram_id = Some row
             ∧ stats_telegram_id stats = telegram_id
             ∧ stats_score stats = score row
             ∧ stats_created_at stats = created_at row
             ∧ 0 <= friends_count stats <= Z.of_nat (length (friends db))
  | None => users db !! telegram_id = None
  end.
Proof.
  intros Hclean. unfold get_user_stats. rewrite (read_call_clean _ Hclean).
  unfold select_user_stats.
  destruct (users db !! telegram_id) as [row|]; [|done]. cbn.
  exists row. repeat split; try done; [lia|].
  pose proof (length_filter (fun f => user_id f = telegram_id) (friends db)).
  lia.
Qed.

End PersistenceFacts.



Lemma bind_user_twice_witness :
  (bind_user sqlite sound_driver 300
     (bind_user sqlite sound_driver 200 one_user 8 42).2 8 42).2
  = (bind_user sqlite sound_driver 300 one_user 8 42).2
  ∧ (bind_user postgres sound_driver 300
       (bind_user postgres sound_driver 200 one_user 8 42).2 8 42).2
    = (bind_user postgres sound_driver 200 one_user 8 42).2.
Proof.
  split.
  - by apply (bind_user_twice sqlite sound_driver 200 300 one_user 8 42).
  - by apply (bind_user_twice postgres sound_driver 200 300 one_user 8 42).
Defined.

Lemma update_score_adds_witness :
  update_score postgres sound_driver
    (update_score postgres sound_driver one_user 7 10).2 7 (-5)
  = update_score postgres sound_driver one_user 7 5
  ∧ update_score postgres sound_driver one_user 7 2147483647
    = (false, one_user).
Proof.
  destruct (update_score_adds postgres sound_driver one_user 7
              {| account_id := 39734273; score := 15; created_at := 100 |}
              10 (-5) ltac:(done) ltac:(done) eq_refl eq_refl eq_refl)
    as (_ & _ & _ & _ & _ & Htwice & Hrefused).
  split; [exact Htwice|]. by apply Hrefused.
Defined.

Lemma no_database_degrades_witness :
  bind_user no_driver sound_driver 200 one_user 8 42 = (false, one_user).
Proof.
  by apply (no_database_degrades no_driver sound_driver 200 one_user 8 42 "");
    [|left].
Defined.


Lemma user_stats_reads_row_witness :
  match get_user_stats postgres sound_driver one_user 7 with
  | Some stats =>
      ∃ row, users one_user !! 7 = Some row
             ∧ stats_telegram_id stats = 7
             ∧ stats_score stats = score row
             ∧ stats_created_at stats = created_at row
             ∧ 0 <= friends_count stats <= Z.of_nat (length (friends one_user))
  | None => users one_user !! 7 = None
  end.
Proof. by apply (user_stats_reads_row postgres sound_driver one_user 7). Defined.

(** ** More on the identity resolver *)

Section ResolverMore.

Variable STEAM_API_KEY : option string.
Variable http_get : string -> http_result.

Local Abbreviation normal s := (rstrip "/" (strip s)).

Lemma decimal_value_nonneg s :
  all_chars is_decimal s = true → 0 <= decimal_value s.
Proof.
  induction s as [|c s IH]; [done|]. cbn [all_chars decimal_value].
  intros [Hc Hs]%andb_true_iff.
  destruct (decimal_char c Hc) as (_ & _ & _ & _ & _ & Hd).
  specialize (IH Hs).
  assert (0 <= 10 ^ Z.of_nat (String.length s)) by (apply Z.pow_nonneg; lia).
  nia.
Qed.

(** A run of decimal digits is its own trimmed form. *)
Lemma normal_decimal t :
  all_chars is_decimal t = true → normal t = t.
Proof.
  intros Hall. unfold strip, rstrip.
  assert (lstrip_with isspace t = t) as ->.
  { destruct t as [|c t]; [done|]. cbn [all_chars] in Hall.
    apply andb_true_iff in Hall as [Hc _].
    destruct (decimal_char c Hc) as (_ & _ & Hsp & _).
    cbn. by rewrite Hsp. }
  rewrite (rstrip_with_id isspace).
  2:{ apply (all_chars_weaken is_decimal); [|done].
      intros c Hc. by destruct (decimal_char c Hc) as (_ & _ & -> & _). }
  apply rstrip_with_id. apply (all_chars_weaken is_decimal); [|done].
  intros c Hc. by destruct (decimal_char c Hc) as (_ & _ & _ & _ & -> & _).
Qed.

(** The resolver on an input whose trimmed form is a run of decimal
    digits. *)
Lemma resolve_digits s :
  normal s ≠ EmptyString →
  all_chars is_decimal (normal s) = true →
  extract_account_id_safe STEAM_API_KEY http_get s =
  Returned (Some
    (if Z.of_nat (String.length (normal s)) <? 11
     then decimal_value (normal s)
     else if decimal_value (normal s) >? 76561197960265728
          then decimal_value (normal s) - 76561197960265728
          else decimal_value (normal s))).
Proof.
  intros Hne Hall.
  unfold extract_account_id_safe, extract_account_id_body. cbv zeta.
  rewrite (isdigit_decimal _ Hne Hall), (int_of_str_decimal _ Hne Hall).
  rewrite !(decimal_no_slash _ _ Hall).
  destruct (Z.of_nat (String.length (normal s)) <? 11); [reflexivity|].
  cbn. by destruct (decimal_value (normal s) >? 76561197960265728).
Qed.

(** X8: an input made of decimal digits (after trimming) always resolves,
    and to a non-negative identifier. *)
Theorem digit_input_nonnegative s :
  normal s ≠ EmptyString →
  all_chars is_decimal (normal s) = true →
  ∃ a, extract_account_id_safe STEAM_API_KEY http_get s = Returned (Some a)
       ∧ 0 <= a.
Proof.
  intros Hne Hall. rewrite (resolve_digits s Hne Hall).
  pose proof (decimal_value_nonneg _ Hall).
  eexists. split; [reflexivity|].
  destruct (_ <? 11); [done|].
  destruct (Z.gtb_spec (decimal_value (normal s)) 76561197960265728); lia.
Qed.

(** *** The decimal rendering of a number *)

Lemma pretty_N_char_digit x :
  (x < 10)%N →
  is_decimal (pretty_N_char x) = true
  ∧ digit_val (pretty_N_char x) = Z.of_N x.
Proof.
  intros Hx.
  assert (x = 0 ∨ x = 1 ∨ x = 2 ∨ x = 3 ∨ x = 4 ∨ x = 5 ∨ x = 6 ∨ x = 7
          ∨ x = 8 ∨ x = 9)%N as Hcases by lia.
  repeat destruct Hcases as [-> | Hcases]; try subst x; by split.
Qed.

(** The digits [pretty_N_go] puts in front of [s]: they are decimal, they
    denote [x], and their number [k] is the number of digits of [x]. *)
Lemma pretty_N_go_digits x : ∀ s,
  all_chars is_decimal s = true →
  all_chars is_decimal (pretty_N_go x s) = true
  ∧ decimal_value (pretty_N_go x s)
    = Z.of_N x * 10 ^ Z.of_nat (String.length s) + decimal_value s
  ∧ ∃ k : nat,
      String.length (pretty_N_go x s) = (k + String.length s)%nat
      ∧ (x = 0%N → k = 0%nat)
      ∧ ((0 < x)%N →
         (1 <= k)%nat
         ∧ 10 ^ (Z.of_nat k - 1) <= Z.of_N x < 10 ^ Z.of_nat k).
Proof.
  induction (N.lt_wf_0 x) as [x _ IH]; intros s Hs.
  assert (x = 0 ∨ 0 < x)%N as [-> | Hpos] by lia.
  - rewrite pretty_N_go_0. split; [done|]. split; [lia|].
    exists 0%nat. split; [done|]. split; [done | lia].
  - rewrite pretty_N_go_step by done.
    destruct (pretty_N_char_digit (x `mod` 10)%N) as [Hdec Hval];
      [by apply N.mod_lt|].
    destruct (IH (x `div` 10)%N ltac:(by apply N.div_lt)
                (String (pretty_N_char (x `mod` 10)) s))
      as (Hall & Hdv & k & Hlen & Hzero & Hk).
    { cbn. by rewrite Hdec. }
    split; [done|]. split.
    + rewrite Hdv. cbn [decimal_value String.length]. rewrite Hval.
      rewrite Nat2Z.inj_succ, Z.pow_succ_r by lia.
      rewrite (N.div_mod x 10) at 3 by done.
      rewrite N2Z.inj_add, N2Z.inj_mul. lia.
    + exists (S k). cbn [String.length] in Hlen.
      split; [lia|]. split; [lia|]. intros _. split; [lia|].
      assert (Z.of_N x = 10 * Z.of_N (x `div` 10) + Z.of_N (x `mod` 10))
        as Hx by (rewrite (N.div_mod x 10) at 1 by done; lia).
      assert (0 <= Z.of_N (x `mod` 10) < 10) as Hm.
      { split; [apply N2Z.is_nonneg|].
        change 10 with (Z.of_N 10). apply N2Z.inj_lt. by apply N.mod_lt. }
      assert (x `div` 10 = 0 ∨ 0 < x `div` 10)%N as [Hq | Hq] by lia.
      * rewrite (Hzero Hq). rewrite Hq in Hx. cbn.
        assert (Z.of_N x ≠ 0) by lia. lia.
      * destruct (Hk Hq) as (Hk1 & Hlo & Hhi).
        rewrite Nat2Z.inj_succ.
        replace (Z.succ (Z.of_nat k) - 1) with (Z.succ (Z.of_nat k - 1))
          by lia.
        rewrite !Z.pow_succ_r by lia. lia.
Qed.

(** The rendering of a non-negative integer: decimal digits that denote it,
    fewer than 11 of them exactly when it is below [10^10]. *)
Lemma pretty_decimal (n : Z) :
  0 <= n →
  pretty n ≠ EmptyString
  ∧ all_chars is_decimal (pretty n) = true
  ∧ decimal_value (pretty n) = n
  ∧ (Z.of_nat (String.length (pretty n)) <? 11) = (n <? 10 ^ 10).
Proof.
  intros Hn. destruct n as [|p|p]; [done| |lia].
  unfold pretty, pretty_Z, pretty, pretty_positive, pretty, pretty_N.
  rewrite decide_False by done.
  destruct (pretty_N_go_digits (N.pos p) "" eq_refl)
    as (Hall & Hdv & k & Hlen & _ & Hk).
  destruct (Hk ltac:(lia)) as (Hk1 & Hlo & Hhi).
  cbn [String.length decimal_value] in *.
  split; [|split; [done|split]].
  - intros E. rewrite E in Hlen. cbn in Hlen. lia.
  - rewrite Hdv. cbn. lia.
  - rewrite Hlen, Nat.add_0_r. cbn [Z.of_N] in *.
    destruct (Z.ltb_spec (Z.of_nat k) 11), (Z.ltb_spec (Z.pos p) (10 ^ 10));
      try done.
    + assert (10 ^ Z.of_nat k <= 10 ^ 10) by (apply Z.pow_le_mono_r; lia).
      lia.
    + assert (10 ^ 10 <= 10 ^ (Z.of_nat k - 1))
        by (apply Z.pow_le_mono_r; lia).
      lia.
Qed.

(** X9: the decimal rendering of a number resolves as follows: below 10^10
    to the number itself, above 76561197960265728 to the number minus that
    offset, and in between to the number itself. *)
Theorem rendered_number_resolution (n : Z) :
  0 <= n →
  extract_account_id_safe STEAM_API_KEY http_get (pretty n)
  = Returned (Some (if n <? 10 ^ 10 then n
                    else if n >? 76561197960265728
                         then steam64_to_account_id n
                         else n)).
Proof.
  intros Hn. destruct (pretty_decimal n Hn) as (Hne & Hall & Hdv & Hlen).
  pose proof (normal_decimal _ Hall) as Hnorm.
  rewrite (resolve_digits (pretty n)); rewrite Hnorm; [|done..].
  by rewrite Hdv, Hlen.
Qed.

(** X10: an input dispatched to the vanity rule, with a credential
    configured, resolves to an identifier exactly when the endpoint answers
    200 with a document that reports success and carries a steamid [int()]
    can read; the identifier is that steamid minus the offset.  Otherwise
    the resolver answers no identifier. *)
Theorem vanity_resolution s key c :
  vanity_shaped (normal s) →
  STEAM_API_KEY = Some (String c key) →
  let answer :=
    http_get (vanity_url (String c key) (last_segment "/" (normal s))) in
  (∀ a, extract_account_id_safe STEAM_API_KEY http_get s = Returned (Some a)
        ↔ ∃ steam64, answers_steam64 answer steam64
                     ∧ a = steam64 - 76561197960265728)
  ∧ ((¬ ∃ steam64, answers_steam64 answer steam64) →
     extract_account_id_safe STEAM_API_KEY http_get s = Returned None).
Proof.
  intros (Hshort & Hprof & Hid) Hkey answer.
  assert (∀ data response, get data "response" (JObj []) = Returned response →
          ∀ success, get response "success" JNull = Returned success →
          eq_one success = true → getitem data "response" = Returned response)
    as Hresp.
  { intros [| | | | | |members] response; try done. cbn.
    destruct (assoc "response" members) as [v|]; cbn.
    - by intros [= ->].
    - intros [= <-] success [= <-]. done. }
  assert (extract_account_id_safe STEAM_API_KEY http_get s =
          match answer with
          | Returned (status, body) =>
              if status =? 200 then
                match body with
                | Returned data =>
                    match get data "response" (JObj []) with
                    | Returned response =>
                        match get response "success" JNull with
                        | Returned success =>
                            if eq_one success then
                              match getitem response "steamid" with
                              | Returned steamid =>
                                  match int_of steamid with
                                  | Returned steam64 =>
                                      Returned
                                        (Some (steam64 - 76561197960265728))
                                  | Raised _ => Returned None
                                  end
                              | Raised _ => Returned None
                              end
                            else Returned None
                        | Raised _ => Returned None
                        end
                    | Raised _ => Returned None
                    end
                | Raised _ => Returned None
                end
              else Returned None
          | Raised _ => Returned None
          end) as Hrun.
  { unfold extract_account_id_safe, extract_account_id_body. cbv zeta.
    rewrite Hshort, Hprof, Hid, Hkey. fold answer.
    destruct answer as [[status body]|e]; [|done]. cbn.
    destruct (status =? 200); [|done].
    destruct body as [data|e]; [|done]. cbn.
    destruct (get data "response" (JObj [])) as [response|] eqn:E1; [|done].
    cbn. destruct (get response "success" JNull) as [success|] eqn:E2;
      [|done].
    cbn. destruct (eq_one success) eqn:E3; [|done].
    rewrite (Hresp _ _ E1 _ E2 E3). cbn.
    destruct (getitem response "steamid") as [steamid|]; [|done]. cbn.
    by destruct (int_of steamid). }
  assert (∀ a, extract_account_id_safe STEAM_API_KEY http_get s
               = Returned (Some a) →
               ∃ steam64, answers_steam64 answer steam64
                          ∧ a = steam64 - 76561197960265728) as Hsome.
  { intros a. rewrite Hrun.
    destruct answer as [[status body]|]; [|done].
    destruct (Z.eqb_spec status 200) as [->|]; [|done].
    destruct body as [data|]; [|done].
    destruct (get data "response" (JObj [])) as [response|] eqn:E1; [|done].
    destruct (get response "success" JNull) as [success|] eqn:E2; [|done].
    destruct (eq_one success) eqn:E3; [|done].
    destruct (getitem response "steamid") as [steamid|] eqn:E4; [|done].
    destruct (int_of steamid) as [steam64|] eqn:E5; [|done].
    intros [= <-]. exists steam64. split; [|done].
    by exists data, response, success, steamid. }
  split.
  - intros a. split; [apply Hsome|].
    intros (steam64 & (data & response & success & steamid & E0 & E1 & E2
                       & E3 & E4 & E5) & ->).
    rewrite Hrun, E0. cbn. by rewrite E1, E2, E3, E4, E5.
  - intros Hno.
    destruct (extract_account_id_safe STEAM_API_KEY http_get s)
      as [[a|]|] eqn:E.
    + destruct Hno. destruct (Hsome a eq_refl) as (steam64 & ? & _). eauto.
    + done.
    + revert E. unfold extract_account_id_safe.
      by destruct (extract_account_id_body _ _ _).
Qed.

End ResolverMore.

Lemma digit_input_nonnegative_witness :
  ∃ a, extract_account_id_safe None (fun _ => Raised ClientError) " 0042/"
       = Returned (Some a) ∧ 0 <= a.
Proof.
  by apply (digit_input_nonnegative None (fun _ => Raised ClientError)
              " 0042/").
Defined.

Lemma rendered_number_resolution_witness :
  extract_account_id_safe None (fun _ => Raised ClientError)
    (pretty 76561198000000001)
  = Returned (Some 39734273).
Proof.
  apply (rendered_number_resolution None (fun _ => Raised ClientError)
           76561198000000001).
  lia.
Defined.

Lemma vanity_resolution_witness :
  extract_account_id_safe (Some "KEY")
    (fun _ => Returned (200, Returned
       (JObj [("response", JObj [("steamid", JStr "76561198000000001");
                                 ("success", JInt 1)])])))
    "https://steamcommunity.com/id/gaben/"
  = Returned (Some 39734273).
Proof.
  destruct (vanity_resolution (Some "KEY")
              (fun _ => Returned (200, Returned
                 (JObj [("response",
                         JObj [("steamid", JStr "76561198000000001");
                               ("success", JInt 1)])])))
              "https://steamcommunity.com/id/gaben/" "EY" "K")
    as [Hiff _]; [by split; [|split] | done |].
  apply Hiff. exists 76561198000000001. split; [|done].
  eexists _, _, _, _. by repeat split.
Defined.

(** ** Stats client *)

Section StatsClientFacts.

(** X11: [get_recent_matches] with a limit of 0 or more returns at most
    that many records: the first ones of the list the endpoint serves with
    status 200, and the empty list whenever the request raises, the status
    is not 200, the body does not decode or does not decode to a list. *)
Theorem recent_matches_bounded answer limit :
  0 <= limit →
  Z.of_nat (length (get_recent_matches answer limit)) <= limit
  ∧ (∀ items, answer = Returned (200, Returned (JArr items)) →
       get_recent_matches answer limit = take (Z.to_nat limit) items)
  ∧ ((∀ items, answer ≠ Returned (200, Returned (JArr items))) →
     get_recent_matches answer limit = []).
Proof.
  intros Hlimit. unfold get_recent_matches, slice_to.
  assert ((0 <=? limit) = true) as -> by (apply Z.leb_le; lia).
  split; [|split].
  - destruct answer as [[status body]|]; cbn; [|lia].
    destruct (status =? 200); cbn; [|lia].
    destruct body as [[]|]; cbn; try lia.
    rewrite length_take. lia.
  - by intros items ->.
  - intros Hno. destruct answer as [[status body]|]; cbn; [|done].
    destruct (Z.eqb_spec status 200) as [->|]; cbn; [|done].
    destruct body as [[]|]; cbn; try done.
    by destruct (Hno items).
Qed.

End StatsClientFacts.

Lemma recent_matches_bounded_witness :
  get_recent_matches
    (Returned (200, Returned (JArr [JInt 1; JInt 2; JInt 3]))) 2
  = [JInt 1; JInt 2].
Proof.
  destruct (recent_matches_bounded
              (Returned (200, Returned (JArr [JInt 1; JInt 2; JInt 3]))) 2)
    as (_ & Hserved & _); [lia|].
  exact (Hserved [JInt 1; JInt 2; JInt 3] eq_refl).
Defined.

(** ** The handler that binds a profile *)

Section HandlerFacts.

Variable STEAM_API_KEY : option string.
Variable http_get : string -> http_result.
Variable player_api : Z -> http_result.
Variable cfg : config.
Variable drv : driver.
Variable now : Z.

Local Abbreviation handle :=
  (process_steam_url STEAM_API_KEY http_get player_api cfg drv now).
Local Abbreviation resolve :=
  (extract_account_id_safe STEAM_API_KEY http_get).

Lemma say_works c r sent :
  chat_works c → say c r sent = (sent ++ [r], Returned ()).
Proof. intros [_ Hsend]. unfold say. by rewrite Hsend. Qed.

(** X12: when the chat works, an input that does not resolve, or that
    resolves to the identifier 0, is answered with the "not recognised"
    message, and nothing is stored. *)
Theorem zero_or_no_identifier_rejected c db user_id steam_url :
  chat_works c →
  resolve steam_url = Returned None ∨ resolve steam_url = Returned (Some 0) →
  process_steam_url STEAM_API_KEY http_get player_api cfg drv now
    c db user_id steam_url
  = ([NotRecognised], db, Returned ()).
Proof.
  intros Hchat Hres.
  unfold process_steam_url, process_steam_url_body.
  rewrite (proj1 Hchat).
  destruct Hres as [-> | ->]; cbn; by rewrite say_works.
Qed.

(** X13: when the chat works, the identifier is not 0 and the player
    endpoint serves a non-empty object whose profile can be read, the
    "bound" message is sent whatever [bind_user] returns, and the database
    afterwards is the one [bind_user] leaves; if no connection can be had
    the message is sent although nothing was stored. *)
Theorem bound_reported_whatever_storage c db user_id steam_url a m members
    profile_name :
  chat_works c →
  resolve steam_url = Returned (Some a) →
  a ≠ 0 →
  get_player_data (player_api a) = Some (JObj (m :: members)) →
  (profile ← get (JObj (m :: members)) "profile" (JObj []);
   get_or_default profile "personaname") = Returned profile_name →
  process_steam_url STEAM_API_KEY http_get player_api cfg drv now
    c db user_id steam_url
  = ([Bound profile_name a],
     (bind_user cfg drv now db user_id a).2, Returned ())
  ∧ (∀ e, get_conn cfg drv = Raised e →
       process_steam_url STEAM_API_KEY http_get player_api cfg drv now
         c db user_id steam_url
       = ([Bound profile_name a], db, Returned ())).
Proof.
  intros Hchat Hres Ha Hdata Hname.
  assert (process_steam_url STEAM_API_KEY http_get player_api cfg drv now
            c db user_id steam_url
          = ([Bound profile_name a],
             (bind_user cfg drv now db user_id a).2, Returned ())) as Hrun.
  { unfold process_steam_url, process_steam_url_body.
    rewrite (proj1 Hchat), Hres. cbn [from_option id].
    apply Z.eqb_neq in Ha. rewrite Ha, Hdata. cbn [from_option id truthy negb].
    cbn [from_option id]. rewrite Hname, say_works by done. done. }
  split; [done|]. intros e Hconn. rewrite Hrun. do 2 f_equal.
  unfold bind_user, write_call. by rewrite Hconn.
Qed.

(** X14: the database [process_steam_url] leaves is the one it found, or
    the one [bind_user] leaves for an identifier that the resolver returned,
    that is not 0, and for which the player endpoint served data. *)
Theorem binding_needs_identifier_and_player c db user_id steam_url :
  let after :=
    (process_steam_url STEAM_API_KEY http_get player_api cfg drv now
       c db user_id steam_url).1.2 in
  after = db
  ∨ ∃ a data,
      resolve steam_url = Returned (Some a)
      ∧ a ≠ 0
      ∧ get_player_data (player_api a) = Some data
      ∧ truthy data = true
      ∧ after = (bind_user cfg drv now db user_id a).2.
Proof.
  cbv zeta. unfold process_steam_url, process_steam_url_body.
  destruct (typing c) as [[]|]; [|by left].
  destruct (resolve steam_url) as [[a|]|] eqn:Hres; cbn [from_option id].
  - destruct (Z.eqb_spec a 0) as [->|Ha].
    { left. by destruct (say c NotRecognised []) as [? []]. }
    destruct (get_player_data (player_api a)) as [data|] eqn:Hdata; cbn.
    2:{ left. by destruct (say c PlayerUnavailable []) as [? []]. }
    destruct (truthy data) eqn:Htruthy; cbn.
    2:{ left. by destruct (say c PlayerUnavailable []) as [? []]. }
    destruct (get data "profile" (JObj []) ≫= _) as [name|]; cbn;
      [|by left].
    right. exists a, data. repeat split; try done.
    by destruct (say c (Bound name a) []) as [? []].
  - left. cbn. by destruct (say c NotRecognised []) as [? []].
  - by left.
Qed.

(** X15: [process_steam_url] lets an exception through only when sending
    the error message raises it; when the chat works it returns normally
    after exactly one message. *)
Theorem only_the_error_message_can_fail c db user_id steam_url :
  let ran :=
    process_steam_url STEAM_API_KEY http_get player_api cfg drv now
      c db user_id steam_url in
  (∀ e, ran.2 = Raised e → answer c ProcessingError = Raised e)
  ∧ (chat_works c → ran.2 = Returned () ∧ length ran.1.1 = 1%nat).
Proof.
  cbv zeta. unfold process_steam_url. split.
  - intros e.
    destruct (process_steam_url_body _ _ _ _ _ _ c db user_id steam_url)
      as [[sent db'] [[]|e']]; cbn; [done|].
    unfold say. by destruct (answer c ProcessingError) as [[]|]; cbn;
      intros [= ->].
  - intros Hchat.
    assert (∀ r, say c r [] = ([r], Returned ())) as Hsay
      by (intros r; by rewrite say_works).
    assert ((∃ e, (process_steam_url_body STEAM_API_KEY http_get player_api
                     cfg drv now c db user_id steam_url).2 = Raised e)
            ∧ (process_steam_url_body STEAM_API_KEY http_get player_api cfg
                 drv now c db user_id steam_url).1.1 = []
            ∨ (process_steam_url_body STEAM_API_KEY http_get player_api cfg
                 drv now c db user_id steam_url).2 = Returned ()
              ∧ length (process_steam_url_body STEAM_API_KEY http_get
                          player_api cfg drv now c db user_id steam_url).1.1
                = 1%nat) as Hbody.
    { unfold process_steam_url_body. rewrite (proj1 Hchat).
      destruct (resolve steam_url) as [resolved|] eqn:Hres.
      2:{ revert Hres. unfold extract_account_id_safe.
          by destruct (extract_account_id_body _ _ _). }
      destruct (default 0 resolved =? 0); [right; by rewrite Hsay|].
      destruct (negb _); [right; by rewrite Hsay|].
      destruct (get _ "profile" (JObj []) ≫= _) as [name|e] eqn:Hname.
      - right. by rewrite Hsay.
      - left. split; [by exists e | done]. }
    destruct Hbody as [[[e Hr] Hs] | [Hr Hs]]; rewrite Hr.
    + rewrite Hs, Hsay. done.
    + by destruct (process_steam_url_body _ _ _ _ _ _ _ _ _ _) as [[? ?] ?].
Qed.

End HandlerFacts.

Lemma zero_or_no_identifier_rejected_witness :
  process_steam_url None (fun _ => Raised ClientError)
    (fun _ => Raised ClientError) postgres sound_driver 200
    quiet_chat one_user 8 "0"
  = ([NotRecognised], one_user, Returned ()).
Proof.
  apply zero_or_no_identifier_rejected; [done|]. by right.
Defined.

Lemma bound_reported_whatever_storage_witness :
  process_steam_url None (fun _ => Raised ClientError)
    (fun _ => Returned (200, Returned
       (JObj [("profile", JObj [("personaname", JStr "gaben")])])))
    no_driver sound_driver 200 quiet_chat one_user 8 "39734273"
  = ([Bound (Some (JStr "gaben")) 39734273], one_user, Returned ()).
Proof.
  eapply (bound_reported_whatever_storage None (fun _ => Raised ClientError)
            (fun _ => Returned (200, Returned
               (JObj [("profile", JObj [("personaname", JStr "gaben")])])))
            no_driver sound_driver 200 quiet_chat one_user 8 "39734273"
            39734273); try done.
Defined.

Lemma only_the_error_message_can_fail_witness :
  (process_steam_url None (fun _ => Raised ClientError)
     (fun _ => Returned (200, Returned (JArr [JInt 1])))
     postgres sound_driver 200 quiet_chat one_user 8 "39734273").2
  = Returned ().
Proof.
  by apply (only_the_error_message_can_fail None
              (fun _ => Raised ClientError)
              (fun _ => Returned (200, Returned (JArr [JInt 1])))
              postgres sound_driver 200 quiet_chat one_user 8 "39734273").
Defined.

(** ** More on the hero catalog *)

Section HeroesMore.

(** X16: once a call of the loader has returned a non-empty dictionary,
    that dictionary is cached, and every later call returns it whatever the
    local file and the remote API hold by then. *)
Theorem catalog_loaded_once cache w d :
  (get_heroes_data cache w).1 = CatDict d →
  d ≠ ∅ →
  (get_heroes_data cache w).2 = CatDict d
  ∧ ∀ w', get_heroes_data (get_heroes_data cache w).2 w'
          = (CatDict d, CatDict d).
Proof.
  intros Hret Hne.
  assert (∀ w', get_heroes_data (CatDict d) w' = (CatDict d, CatDict d))
    as Hcached.
  { intros w'. unfold get_heroes_data. cbn.
    by rewrite bool_decide_eq_true_2. }
  assert ((get_heroes_data cache w).2 = CatDict d) as Hcache.
  { revert Hret. unfold get_heroes_data.
    destruct (catalog_truthy cache); [done|].
    destruct (local_file w) as [j|]; cbn.
    - destruct (dict_of_items _ j) as [d'|]; cbn; [done|].
      destruct (heroes_api w) as [[status body]|]; cbn;
        [|by intros [= <-]].
      destruct (status =? 200); [|done].
      destruct (body ≫= _); cbn; [done | by intros [= <-]].
    - destruct (heroes_api w) as [[status body]|]; cbn;
        [|by intros [= <-]].
      destruct (status =? 200); [|done].
      destruct (body ≫= _); cbn; [done | by intros [= <-]]. }
  split; [done|]. intros w'. by rewrite Hcache.
Qed.

(** X17: a local file that decodes to a true value but not to a dictionary
    of integer keys is left in the cache as it was read.  If the remote API
    then raises, the caller gets an empty dictionary this time and the raw
    document on every later call; unless that document is an object, the
    formatter's lookup on it faults. *)
Theorem unconverted_file_stays_cached cache j e :
  catalog_truthy cache = false →
  truthy j = true →
  raises (dict_of_items (fun v => mret v) j) = true →
  get_heroes_data cache {| local_file := Returned j;
                           heroes_api := Raised e |}
  = (CatDict ∅, CatRaw j)
  ∧ (∀ w', get_heroes_data (CatRaw j) w' = (CatRaw j, CatRaw j))
  ∧ ((∀ members, j ≠ JObj members) →
     ∀ hero_id, catalog_get (CatRaw j) hero_id = Raised AttributeError).
Proof.
  intros Hcache Htruthy Hraise. split; [|split].
  - unfold get_heroes_data. rewrite Hcache. cbn.
    by destruct (dict_of_items _ j).
  - intros w'. unfold get_heroes_data. cbn. by rewrite Htruthy.
  - intros Hobj hero_id. destruct j; try done. by destruct (Hobj members).
Qed.

Lemma snoc_split {A} (pre post ms : list A) (a b : A) :
  pre ++ a :: post = ms ++ [b] →
  (post = [] ∧ pre = ms ∧ a = b)
  ∨ ∃ post', post = post' ++ [b] ∧ ms = pre ++ a :: post'.
Proof.
  destruct post as [|x post _] using rev_ind.
  - intros [-> ->]%app_inj_tail. by left.
  - rewrite app_comm_cons, app_assoc. intros [<- ->]%app_inj_tail.
    right. by exists post.
Qed.

Lemma dict_of_items_snoc value members k x :
  dict_of_items value (JObj (members ++ [(k, x)]))
  = d ← dict_of_items value (JObj members);
    n ← int_of_str k;
    v ← value x;
    mret (<[n := v]> d).
Proof. unfold dict_of_items. by rewrite foldl_app. Qed.

(** X18: converting the members of a decoded object into a dictionary
    succeeds exactly when every key is an integer literal and every value
    converts; the dictionary then maps an integer to the converted value of
    the last member whose key denotes it. *)
Theorem dict_of_items_last_wins value members :
  ((∃ d, dict_of_items value (JObj members) = Returned d)
   ↔ Forall (fun kx => raises (int_of_str kx.1) = false
                       ∧ raises (value kx.2) = false) members)
  ∧ ∀ d, dict_of_items value (JObj members) = Returned d →
      ∀ n v, d !! n = Some v
             ↔ ∃ pre k x post,
                 members = pre ++ (k, x) :: post
                 ∧ int_of_str k = Returned n
                 ∧ value x = Returned v
                 ∧ Forall (fun kx => int_of_str kx.1 ≠ Returned n) post.
Proof.
  induction members as [|[k x] members [IHok IHget]] using rev_ind.
  - split.
    + split; [constructor | by exists ∅].
    + intros d [= <-] n v. rewrite lookup_empty. split; [done|].
      intros (pre & ? & ? & ? & Hsplit & _). by destruct pre.
  - rewrite dict_of_items_snoc. split.
    + rewrite Forall_app, Forall_singleton, <- IHok. cbn [fst snd].
      destruct (dict_of_items value (JObj members)) as [d|]; cbn.
      * destruct (int_of_str k) as [n|]; cbn.
        -- destruct (value x) as [v|]; cbn.
           ++ split; [eauto | by eexists].
           ++ split; [by intros [? ?] | by intros (_ & _ & ?)].
        -- split; [by intros [? ?] | by intros (_ & ? & _)].
      * split; [by intros [? ?] | by intros ([? ?] & _)].
    + intros d'.
      destruct (dict_of_items value (JObj members)) as [d|]; cbn; [|done].
      destruct (int_of_str k) as [n0|] eqn:Hk; cbn; [|done].
      destruct (value x) as [v0|] eqn:Hx; cbn; [|done].
      intros [= <-] n v. specialize (IHget d eq_refl n v).
      destruct (decide (n0 = n)) as [->|Hne].
      * rewrite lookup_insert_eq. split.
        -- intros [= <-]. exists members, k, x, []. by repeat split.
        -- intros (pre & k1 & x1 & post & Hsplit & Hk1 & Hx1 & Hpost).
           symmetry in Hsplit. apply snoc_split in Hsplit
             as [(-> & -> & [= -> ->]) | (post' & -> & _)].
           ++ congruence.
           ++ rewrite Forall_app, Forall_singleton in Hpost.
              destruct Hpost as [_ Hlast]. cbn in Hlast. congruence.
      * rewrite lookup_insert_ne by done. rewrite IHget. split.
        -- intros (pre & k1 & x1 & post & -> & Hk1 & Hx1 & Hpost).
           exists pre, k1, x1, (post ++ [(k, x)]).
           split; [by rewrite <- app_assoc|]. split; [done|].
           split; [done|]. apply Forall_app. split; [done|].
           apply Forall_singleton. cbn. congruence.
        -- intros (pre & k1 & x1 & post & Hsplit & Hk1 & Hx1 & Hpost).
           symmetry in Hsplit. apply snoc_split in Hsplit
             as [(-> & -> & [= -> ->]) | (post' & -> & ->)].
           ++ congruence.
           ++ apply Forall_app in Hpost as [Hpost _].
              by exists pre, k1, x1, post'.
Qed.

End HeroesMore.

Lemma catalog_loaded_once_witness :
  get_heroes_data
    (get_heroes_data (CatDict ∅)
       {| local_file := Returned (JObj [("1", JStr "Anti-Mage")]);
          heroes_api := Raised ClientError |}).2
    {| local_file := Raised OSError; heroes_api := Raised ClientError |}
  = (CatDict {[ 1 := JStr "Anti-Mage" ]}, CatDict {[ 1 := JStr "Anti-Mage" ]}).
Proof.
  by apply (catalog_loaded_once (CatDict ∅)
              {| local_file := Returned (JObj [("1", JStr "Anti-Mage")]);
                 heroes_api := Raised ClientError |}
              {[ 1 := JStr "Anti-Mage" ]}).
Defined.

Lemma unconverted_file_stays_cached_witness :
  get_heroes_data (CatDict ∅)
    {| local_file := Returned (JArr [JStr "Axe"]);
       heroes_api := Raised TimeoutError |}
  = (CatDict ∅, CatRaw (JArr [JStr "Axe"]))
  ∧ catalog_get (CatRaw (JArr [JStr "Axe"])) 2 = Raised AttributeError.
Proof.
  destruct (unconverted_file_stays_cached (CatDict ∅) (JArr [JStr "Axe"])
              TimeoutError ltac:(done) eq_refl eq_refl)
    as (Hfirst & _ & Hfault).
  split; [exact Hfirst|]. by apply Hfault.
Defined.

Lemma dict_of_items_last_wins_witness :
  ∃ d, dict_of_items (fun v => mret v)
         (JObj [("1", JStr "Anti-Mage"); ("01", JStr "Axe")]) = Returned d
       ∧ d !! 1 = Some (JStr "Axe").
Proof.
  destruct (dict_of_items_last_wins (fun v => mret v)
              [("1", JStr "Anti-Mage"); ("01", JStr "Axe")])
    as [[_ Hok] Hget].
  destruct Hok as [d Hd].
  { repeat (apply Forall_cons; split; [by split|]). apply Forall_nil_2. }
  exists d. split; [exact Hd|].
  apply (Hget d Hd).
  exists [("1", JStr "Anti-Mage")], "01", (JStr "Axe"), [].
  by repeat split.
Defined.

(** ** More on the match formatter *)

Section FormatterMore.

(** What the loop over a dictionary catalog appends to [lines]: one line
    per record, in order, each numbered, ruled off, labelled and classified
    from its record. *)
Lemma loop_lines d ms : ∀ i st st',
  loop (CatDict d) i ms st = Returned st' →
  ∃ ls,
    lines st' = lines st ++ ls
    ∧ length ls = length ms
    ∧ ∀ (k : nat) l, ls !! k = Some l →
        ∃ r, ms !! k = Some r
             ∧ line_index l = i + Z.of_nat k
             ∧ line_rule l = (i + Z.of_nat k <? 6)
             ∧ line_hero l
               = from_option HeroName (HeroFallback (default 0 (hero_id r)))
                   (d !! default 0 (hero_id r))
             ∧ (line_win l = true ↔ won r).
Proof.
  induction ms as [|m ms IH]; intros i st st'.
  - intros [= <-]. exists []. rewrite app_nil_r. by repeat split.
  - cbn [loop]. unfold loop_body at 1.
    cbn [catalog_get mbind outcome_bind bind mret outcome_ret].
    intros Hrun. apply IH in Hrun as (ls & Hlines & Hlen & Hline).
    cbn [lines] in Hlines. rewrite <- app_assoc in Hlines.
    eexists (_ :: ls). split; [exact Hlines|]. split; [cbn; lia|].
    intros [|k] l; cbn.
    + intros [= <-]. exists m. cbn. rewrite Z.add_0_r.
      do 4 (split; [done|]). unfold won. apply win_flag.
    + intros Hk. destruct (Hline _ _ Hk) as (r & Hr & Hi & Hrule & Hrest).
      exists r. split; [done|].
      replace (i + Z.of_nat (S k)) with (i + 1 + Z.of_nat k) by lia.
      split; [done|]. by split.
Qed.

Lemma summarise_loop heroes matches h ls :
  summarise heroes matches = Returned (Summary h ls) →
  ∃ st, loop heroes 1 (take 10 matches)
          {| wins := 0; roles := []; lines := [] |} = Returned st
        ∧ lines st = ls.
Proof.
  unfold summarise.
  destruct (loop heroes 1 _ _) as [st|]; cbn; [|done].
  destruct (match roles st with [] => _ | _ => _ end) as [main_role|]; cbn;
    [|done].
  intros [= _ <-]. by exists st.
Qed.

(** X19: the summary has one line for each of the first 10 records and no
    more; the lines are numbered from 1 in the order of the records, and
    exactly the first five carry the rule. *)
Theorem shown_lines_numbered d m ms h ls :
  summarise (CatDict d) (m :: ms) = Returned (Summary h ls) →
  length ls = Nat.min 10 (length (m :: ms))
  ∧ ∀ (k : nat) l, ls !! k = Some l →
      line_index l = Z.of_nat k + 1
      ∧ line_rule l = bool_decide (k < 5)%nat.
Proof.
  intros Hrun. apply summarise_loop in Hrun as (st & Hloop & <-).
  apply loop_lines in Hloop as (ls & -> & Hlen & Hline). cbn [lines app].
  split; [by rewrite Hlen, length_take|].
  intros k l Hk. destruct (Hline _ _ Hk) as (r & _ & -> & -> & _).
  split; [lia|].
  destruct (Z.ltb_spec (1 + Z.of_nat k) 6);
    [rewrite bool_decide_eq_true_2 | rewrite bool_decide_eq_false_2];
    done || lia.
Qed.

(** X20: the k-th line describes the k-th record: it shows the catalog's
    entry for the record's hero id, the generic label exactly when the
    catalog has no entry for that id, and the win mark exactly when the
    record is a win. *)
Theorem line_describes_record d m ms h ls (k : nat) l :
  summarise (CatDict d) (m :: ms) = Returned (Summary h ls) →
  ls !! k = Some l →
  ∃ r, (m :: ms) !! k = Some r
       ∧ (k < 10)%nat
       ∧ (∀ v, line_hero l = HeroName v ↔ d !! default 0 (hero_id r) = Some v)
       ∧ (line_hero l = HeroFallback (default 0 (hero_id r))
          ↔ d !! default 0 (hero_id r) = None)
       ∧ (line_win l = true ↔ won r).
Proof.
  intros Hrun Hk. apply summarise_loop in Hrun as (st & Hloop & <-).
  apply loop_lines in Hloop as (ls & Hls & Hlen & Hline).
  cbn [lines app] in Hls. rewrite Hls in Hk.
  destruct (Hline _ _ Hk) as (r & Hr & _ & _ & Hhero & Hwin).
  apply lookup_take_Some in Hr as [Hr Hlt].
  exists r. split; [done|]. split; [done|]. rewrite Hhero.
  destruct (d !! default 0 (hero_id r)) as [v|]; cbn.
  - split; [|split; [|done]].
    + intros v'. split; by intros [= ->].
    + by split.
  - split; [|split; [|done]].
    + intros v'. by split.
    + by split.
Qed.

Lemma filter_complement {A} (P : A → Prop) `{∀ x, Decision (P x)}
    (xs : list A) :
  (length (filter P xs) + length (filter (fun x => ¬ P x) xs))%nat
  = length xs.
Proof.
  induction xs as [|x xs IH]; [done|]. rewrite !filter_cons.
  destruct (decide (P x)), (decide (¬ P x)); cbn; try lia; tauto.
Qed.

(** X21: for a list of at most 10 records the summary counts over the
    whole list: the total is its length, the wins are its won records, the
    losses its lost records, and the rate is wins over that total. *)
Theorem summary_counts_up_to_ten d m ms h ls :
  (length (m :: ms) <= 10)%nat →
  summarise (CatDict d) (m :: ms) = Returned (Summary h ls) →
  h_total h = Z.of_nat (length (m :: ms))
  ∧ h_wins h = count_wins (m :: ms)
  ∧ h_losses h
    = Z.of_nat (length (filter (fun r => ¬ won r) (m :: ms)))
  ∧ h_winrate h
    = format_fixed 1 (percentage (count_wins (m :: ms))
                        (Z.of_nat (length (m :: ms))))
  ∧ length ls = length (m :: ms).
Proof.
  intros Hlen Hrun.
  destruct (summarise_dict d m ms)
    as (main_role & ls' & Hrun' & Hwin & _).
  rewrite Hrun in Hrun'. injection Hrun' as -> ->.
  assert (take 9 ms = ms) as Htake by (apply take_ge; cbn in Hlen; lia).
  change (take 10 (m :: ms)) with (m :: take 9 ms) in Hwin.
  rewrite Htake in Hwin |- *. cbn [h_total h_wins h_losses h_winrate].
  repeat split; try done.
  - pose proof (filter_complement won (m :: ms)) as Hsum.
    cbn [length] in Hsum. unfold count_wins. lia.
  - by apply Forall2_length in Hwin.
Qed.

Lemma occurrences_le_length r xs :
  occurrences r xs <= Z.of_nat (length xs).
Proof.
  unfold occurrences. pose proof (length_filter (fun x => x = r) xs). lia.
Qed.

Lemma tallied_role_names r ms :
  r ∈ tallied ms →
  r ∈ ["Safe Lane"; "Mid Lane"; "Off Lane"; "Support"].
Proof.
  unfold tallied. intros (m & _ & Hrole)%list_elem_of_omap.
  destruct (default 0 (lane_role m)) as [|p|p]; try done.
  destruct p as [[[?|?|]|[?|?|]|]|[[?|?|]|[?|?|]|]|]; try done;
    injection Hrole as <-; set_solver.
Qed.

Lemma tallied_length ms : (length (tallied ms) <= length ms)%nat.
Proof.
  unfold tallied. induction ms as [|m ms IH]; [done|]. cbn.
  destruct (role_name _); cbn; lia.
Qed.

(** X22: a main role, when the summary names one, is one of the four lane
    roles; its count is at least 1 and at most the number of tallied
    records, which is at most 10 and at most the number of records. *)
Theorem main_role_annotation_bounds d m ms h ls r c n :
  summarise (CatDict d) (m :: ms) = Returned (Summary h ls) →
  h_main_role h = Some (r, c, n) →
  r ∈ ["Safe Lane"; "Mid Lane"; "Off Lane"; "Support"]
  ∧ 1 <= c <= n ∧ n <= 10 ∧ n <= h_total h.
Proof.
  intros Hrun Hmain.
  destruct (summarise_dict d m ms)
    as (main_role & ls' & Hrun' & _ & _ & Hnone & Hsome).
  rewrite Hrun in Hrun'. injection Hrun' as -> ->. cbn in Hmain. subst.
  destruct (tallied (take 10 (m :: ms))) as [|x xs] eqn:Eroles;
    [by specialize (Hnone eq_refl)|].
  destruct (Hsome ltac:(done))
    as (r' & c' & [= <- <- ->] & Hc & _ & pre & post & Hsplit & _).
  pose proof (tallied_length (take 10 (m :: ms))) as Hlen.
  rewrite Eroles, length_take in Hlen.
  assert (r ∈ x :: xs) as Hin
    by (rewrite Hsplit; apply elem_of_app; right; left).
  split.
  { apply (tallied_role_names r (take 10 (m :: ms))). by rewrite Eroles. }
  pose proof (occurrences_le_length r (x :: xs)).
  assert (1 <= occurrences r (x :: xs)).
  { rewrite Hsplit. unfold occurrences.
    rewrite filter_app, filter_cons_True, length_app by done. cbn. lia. }
  cbn [h_total length] in *. lia.
Qed.

(** X23: with a non-empty dictionary cached, [format_matches_for_display]
    consults neither the local file nor the remote API and leaves the cache
    as it is: whatever the two sources hold, it answers the sentinel for an
    empty list and otherwise what the loop gives with the cached
    dictionary. *)
Theorem format_with_cached_catalog d w matches :
  d ≠ ∅ →
  format_matches_for_display (CatDict d) w matches
  = (match matches with
     | [] => Returned NoData
     | _ :: _ => summarise (CatDict d) matches
     end, CatDict d).
Proof.
  intros Hne. unfold format_matches_for_display.
  destruct matches as [|m ms]; [done|].
  assert (get_heroes_data (CatDict d) w = (CatDict d, CatDict d)) as ->; [|done].
  unfold get_heroes_data. cbn. by rewrite bool_decide_eq_true_2.
Qed.


End FormatterMore.

Lemma shown_lines_numbered_witness :
  ∃ h ls,
    summarise (CatDict ∅) (replicate 12 (bare_record 0 true))
    = Returned (Summary h ls)
    ∧ length ls = 10%nat.
Proof.
  destruct (summarise (CatDict ∅) (replicate 12 (bare_record 0 true)))
    as [[|h ls]|] eqn:Hrun;
    try (exfalso; vm_compute in Hrun; discriminate Hrun).
  exists h, ls. split; [reflexivity|].
  exact (proj1 (shown_lines_numbered ∅ (bare_record 0 true)
                  (replicate 11 (bare_record 0 true)) h ls Hrun)).
Defined.

Lemma line_describes_record_witness :
  ∃ h l ls,
    summarise (CatDict {[ 0 := JStr "Axe" ]}) [bare_record 130 false]
    = Returned (Summary h (l :: ls))
    ∧ line_hero l = HeroName (JStr "Axe")
    ∧ line_win l = true.
Proof.
  eexists _, _, _. split; [reflexivity|].
  destruct (line_describes_record {[ 0 := JStr "Axe" ]}
              (bare_record 130 false) [] _ _ 0%nat _ eq_refl eq_refl)
    as (r & [= <-] & _ & Hname & _ & Hwin).
  split; [by apply Hname | apply Hwin; right; by split].
Defined.

Lemma summary_counts_up_to_ten_witness :
  ∃ h ls,
    summarise (CatDict ∅) [bare_record 0 true; bare_record 130 true]
    = Returned (Summary h ls)
    ∧ h_total h = 2 ∧ h_wins h = 1 ∧ h_losses h = 1.
Proof.
  eexists _, _. split; [reflexivity|].
  destruct (summary_counts_up_to_ten ∅ (bare_record 0 true)
              [bare_record 130 true] _ _ ltac:(cbn; lia) eq_refl)
    as (Htotal & Hwins & Hlosses & _).
  by rewrite Htotal, Hwins, Hlosses.
Defined.

Lemma main_role_annotation_bounds_witness :
  ∃ h ls,
    summarise (CatDict ∅) [lane_record 4; lane_record 9; lane_record 5]
    = Returned (Summary h ls)
    ∧ h_main_role h = Some ("Support", 2, 2)
    ∧ 1 <= 2 <= 2 ∧ 2 <= 10 ∧ 2 <= h_total h.
Proof.
  eexists _, _. split; [reflexivity|]. split; [reflexivity|].
  eapply (main_role_annotation_bounds ∅ (lane_record 4)
            [lane_record 9; lane_record 5] _ _ "Support" 2 2 eq_refl eq_refl).
Defined.

Lemma format_with_cached_catalog_witness :
  let cached : gmap Z json := {[ 1 := JStr "Anti-Mage" ]} in
  let w := {| local_file := Returned (JObj [("1", JStr "Axe")]);
              heroes_api := Raised ClientError |} in
  let m := {| player_slot := Some 0; radiant_win := Some true;
              lane_role := Some 1; hero_id := Some 1; kills := Some 7;
              deaths := Some 2; assists := Some 5; duration := Some 1834 |} in
  ∃ h l,
    format_matches_for_display (CatDict cached) w [m]
    = (Returned (Summary h [l]), CatDict cached)
    ∧ line_hero l = HeroName (JStr "Anti-Mage")
    ∧ line_kda l = "7/2/5 (6.00)".
Proof.
  cbv zeta.
  rewrite (format_with_cached_catalog {[ 1 := JStr "Anti-Mage" ]}
             {| local_file := Returned (JObj [("1", JStr "Axe")]);
                heroes_api := Raised ClientError |}) by done.
  destruct (summarise _ _) as [[|h [|l [|? ?]]]|] eqn:Hrun;
    try (exfalso; vm_compute in Hrun; discriminate Hrun).
  exists h, l. split; [done|].
  vm_compute in Hrun. by injection Hrun as <- <-.
Defined.

(** ** More on the benchmark analyzer *)

Section AnalyzerMore.

Lemma analysis_blocks_sublist bench keys bs :
  analysis_blocks bench keys = Returned bs →
  sublist (block_key <$> bs) keys.
Proof.
  revert bs. induction keys as [|k keys IH]; intros bs.
  - by intros [= <-].
  - cbn. destruct (metric_block bench k) as [[b|]|] eqn:Ek; cbn; [| |done].
    + apply metric_block_key in Ek as [<- _].
      destruct (analysis_blocks bench keys) as [bs'|]; cbn; [|done].
      intros [= <-]. cbn. apply sublist_skip. by apply IH.
    + destruct (analysis_blocks bench keys) as [bs'|]; cbn; [|done].
      intros [= <-]. cbn. apply sublist_cons. by apply IH.
Qed.

(** X25: the analysis has at most one paragraph for each recognized metric
    and none for any other key; the paragraphs come in the order of the
    metrics table, so there are at most 7 of them. *)
Theorem analysis_follows_metrics_table bench bs :
  analysis_blocks bench metrics = Returned bs →
  sublist (block_key <$> bs) metrics
  ∧ NoDup (block_key <$> bs)
  ∧ (length bs <= 7)%nat.
Proof.
  intros Hrun. apply analysis_blocks_sublist in Hrun as Hsub.
  split; [done|]. split.
  - eapply sublist_NoDup; [|exact Hsub].
    apply (bool_decide_unpack (NoDup metrics)). by vm_compute.
  - apply sublist_length in Hsub. by rewrite length_fmap in Hsub.
Qed.

(** X26: a benchmark document that is empty or has a key "error" is
    answered with the "no data" message, whatever its metrics hold.  In any
    other document a single recognized metric that holds a true value
    without a length, such as a number other than 0, raises a TypeError and
    makes the whole analysis fail, whatever the other metrics hold. *)
Theorem analysis_fails_as_a_whole members :
  (members = [] ∨ is_Some (assoc "error" members) →
   analyze_document (JObj members) = Returned NoAnalysis)
  ∧ (members ≠ [] →
     assoc "error" members = None →
     ∀ k z,
       k ∈ metrics → assoc k members = Some (JInt z) → z ≠ 0 →
       metric_block (JObj members) k = Raised TypeError
       ∧ raises (analyze_document (JObj members)) = true).
Proof.
  split; [apply analyze_document_refused|].
  intros Hmembers Herror k z Hk Hval Hz.
  assert (metric_block (JObj members) k = Raised TypeError) as Hraise.
  { unfold metric_block, select_sample. cbn. rewrite Hval.
    rewrite bool_decide_eq_true_2 by eauto. cbn.
    apply Z.eqb_neq in Hz. by rewrite Hz. }
  split; [done|].
  rewrite analyze_document_open by done.
  destruct (analysis_blocks (JObj members) metrics) as [bs|] eqn:E; [|done].
  assert (Forall (λ k, raises (metric_block (JObj members) k) = false)
            metrics) as Hquiet
    by (apply analysis_blocks_returns; eauto).
  rewrite Forall_forall in Hquiet. specialize (Hquiet k Hk).
  by rewrite Hraise in Hquiet.
Qed.

(** X27: a selected sample that is an object without the keys "percentile"
    and "value" is read as percentile 0 and value 0: the metric is rated
    Poor, with value 0.0 and 0.0% of players. *)
Theorem sample_without_keys_is_poor bench key i sample :
  select_sample bench key = Returned (Some (i, JObj sample)) →
  assoc "percentile" sample = None →
  assoc "value" sample = None →
  metric_block bench key
  = Returned (Some {| block_key := key; block_index := i;
                      block_rating := Poor; block_value := "0.0";
                      block_percent := "0.0" |}).
Proof.
  intros Hsel Hp Hv. unfold metric_block. rewrite Hsel. cbn.
  rewrite Hp, Hv. reflexivity.
Qed.

End AnalyzerMore.

Lemma analysis_follows_metrics_table_witness :
  ∃ bs,
    analysis_blocks
      (JObj [("xp_per_min", JArr (replicate 6 (JObj [])));
             ("gold_per_min", JArr (replicate 6 (JObj [])))]) metrics
    = Returned bs
    ∧ block_key <$> bs = ["gold_per_min"; "xp_per_min"]
    ∧ (length bs <= 7)%nat.
Proof.
  destruct (analysis_blocks
              (JObj [("xp_per_min", JArr (replicate 6 (JObj [])));
                     ("gold_per_min", JArr (replicate 6 (JObj [])))])
              metrics) as [bs|] eqn:Hrun;
    [|exfalso; vm_compute in Hrun; discriminate Hrun].
  exists bs. split; [reflexivity|].
  destruct (analysis_follows_metrics_table _ _ Hrun) as (_ & _ & Hlen).
  split; [|exact Hlen].
  vm_compute in Hrun. injection Hrun as <-. reflexivity.
Defined.

Lemma analysis_fails_as_a_whole_witness :
  raises (analyze_document
            (JObj [("gold_per_min", JArr (replicate 6 (JObj [])));
                   ("tower_damage", JInt 5)])) = true
  ∧ analyze_document
      (JObj [("error", JStr "not found"); ("tower_damage", JInt 5)])
    = Returned NoAnalysis.
Proof.
  split.
  - destruct (analysis_fails_as_a_whole
                [("gold_per_min", JArr (replicate 6 (JObj [])));
                 ("tower_damage", JInt 5)]) as [_ Hfail].
    apply (Hfail ltac:(done) eq_refl "tower_damage" 5); [|done..].
    apply (bool_decide_unpack ("tower_damage" ∈ metrics)). by vm_compute.
  - destruct (analysis_fails_as_a_whole
                [("error", JStr "not found"); ("tower_damage", JInt 5)])
      as [Hrefused _].
    apply Hrefused. right. by eexists.
Defined.

Lemma sample_without_keys_is_poor_witness :
  metric_block (JObj [("gold_per_min", JArr (replicate 6 (JObj [])))])
    "gold_per_min"
  = Returned (Some {| block_key := "gold_per_min"; block_index := 4;
                      block_rating := Poor; block_value := "0.0";
                      block_percent := "0.0" |}).
Proof.
  by apply (sample_without_keys_is_poor
              (JObj [("gold_per_min", JArr (replicate 6 (JObj [])))])
              "gold_per_min" 4 []).
Defined.
